(** * Wotanxx: the Windows service controller [wotan::winService]

    A shallow embedding of [src/application/service/winService.cpp] and the
    properties of its service control state machine.

    The class keeps one [SERVICE_STATUS] structure, reports it to the
    service control manager (SCM) through [::SetServiceStatus], and
    forwards control codes to the lifecycle callbacks [onStart], [onStop],
    [onPause], [onContinue] and [onShutdown], which may throw.  The
    embedding is an exception monad over the process state that also
    collects the operating-system calls made, in order. *)

From Stdlib Require Import ZArith List String Ascii Bool Lia.
Import ListNotations.
Local Open Scope Z_scope.

(** ** Machine integers and platform constants *)

(** [DWORD] is a 32-bit unsigned integer, [WORD] a 16-bit one; handles and
    [BOOL] are integers as well ([NULL] and [FALSE] are 0). *)
Definition DWORD := Z.
Definition WORD := Z.
Definition HANDLE := Z.
Definition BOOL := Z.

Definition NULL : HANDLE := 0.

(** Unsigned 32-bit wrap-around, as [dwCheckPoint++] has it. *)
Definition wrap32 (z : Z) : DWORD := z mod 2 ^ 32.

(** [if (f)] on a [BOOL]. *)
Definition truthy (f : BOOL) : bool := negb (f =? 0).

(** Values of the Windows SDK headers (winsvc.h, winnt.h, winerror.h). *)
Definition SERVICE_STOPPED : DWORD := 1.
Definition SERVICE_START_PENDING : DWORD := 2.
Definition SERVICE_STOP_PENDING : DWORD := 3.
Definition SERVICE_RUNNING : DWORD := 4.
Definition SERVICE_CONTINUE_PENDING : DWORD := 5.
Definition SERVICE_PAUSE_PENDING : DWORD := 6.
Definition SERVICE_PAUSED : DWORD := 7.

Definition SERVICE_CONTROL_STOP : DWORD := 1.
Definition SERVICE_CONTROL_PAUSE : DWORD := 2.
Definition SERVICE_CONTROL_CONTINUE : DWORD := 3.
Definition SERVICE_CONTROL_INTERROGATE : DWORD := 4.
Definition SERVICE_CONTROL_SHUTDOWN : DWORD := 5.

Definition SERVICE_ACCEPT_STOP : DWORD := 1.
Definition SERVICE_ACCEPT_PAUSE_CONTINUE : DWORD := 2.
Definition SERVICE_ACCEPT_SHUTDOWN : DWORD := 4.

Definition SERVICE_WIN32_OWN_PROCESS : DWORD := 16.
Definition NO_ERROR : DWORD := 0.
Definition EVENTLOG_ERROR_TYPE : WORD := 1.

(** The test of [setServiceStatus] for the states that get checkpoint 0. *)
Definition running_or_stopped (s : DWORD) : bool :=
  (s =? SERVICE_RUNNING) || (s =? SERVICE_STOPPED).

(** The four states the SCM calls pending. *)
Definition is_pending (s : DWORD) : bool :=
  (s =? SERVICE_START_PENDING) || (s =? SERVICE_STOP_PENDING) ||
  (s =? SERVICE_CONTINUE_PENDING) || (s =? SERVICE_PAUSE_PENDING).

(** ** Data *)

Record SERVICE_STATUS := mkStatus {
  dwServiceType : DWORD;
  dwCurrentState : DWORD;
  dwControlsAccepted : DWORD;
  dwWin32ExitCode : DWORD;
  dwServiceSpecificExitCode : DWORD;
  dwCheckPoint : DWORD;
  dwWaitHint : DWORD
}.

(** The data members of [class winService]. *)
Record winService_t := mkService {
  name_ : string;
  statusHandle_ : HANDLE;
  status_ : SERVICE_STATUS
}.

(** The process: the singleton the static [service_] points to once [run]
    has bound it, the function-local [static DWORD dwCheckPoint] of
    [setServiceStatus], and what [RegisterEventSource] answers ([NULL] when
    the event log is not available). *)
Record process := mkProcess {
  service_ : winService_t;
  static_dwCheckPoint : DWORD;
  os_event_source : HANDLE
}.

(** The virtual lifecycle callbacks; [onStart] receives the arguments. *)
Inductive callback :=
| OnStart (dwArgc : DWORD) (pszArgv : list string)
| OnStop
| OnPause
| OnContinue
| OnShutdown.

(** What can be thrown: a [DWORD] (a platform error code), which
    [catch (DWORD dwError)] receives, or anything else, which only
    [catch (...)] receives. *)
Inductive exn :=
| ExDWORD (dwError : DWORD)
| ExOther.

(** What a callback does when invoked: it returns or it throws.
    Callbacks are supplied by the concrete service; they are modelled by
    their outcome and do not touch the controller's own members. *)
Inductive outcome :=
| Returns
| Throws (e : exn).

(** Operating-system calls and callback invocations, as observed. *)
Inductive event :=
| EvSetServiceStatus (h : HANDLE) (s : SERVICE_STATUS)
| EvCallback (c : callback)
| EvRegisterEventSource (name : string)
| EvReportEvent (h : HANDLE) (wType : WORD) (lpszStrings : list string)
| EvDeregisterEventSource (h : HANDLE)
| EvRegisterServiceCtrlHandler (name : string).

(** ** The exception monad *)

Inductive result (A : Type) :=
| Normal (a : A)
| Thrown (e : exn).
Arguments Normal {A} a.
Arguments Thrown {A} e.

Definition M (A : Type) : Type := process -> result A * process * list event.

Definition ret {A} (a : A) : M A := fun p => (Normal a, p, []).

Definition bind {A B} (m : M A) (k : A -> M B) : M B :=
  fun p =>
    match m p with
    | (Normal a, p1, t1) =>
        match k a p1 with (r, p2, t2) => (r, p2, t1 ++ t2) end
    | (Thrown e, p1, t1) => (Thrown e, p1, t1)
    end.

Definition throw {A} (e : exn) : M A := fun p => (Thrown e, p, []).

Definition emit (e : event) : M unit := fun p => (Normal tt, p, [e]).

Definition get : M process := fun p => (Normal p, p, []).

(** [try { body } catch (DWORD dwError) { h1 } catch (...) { h2 }]: the
    handlers run in the state the body left behind, after its events. *)
Definition try_catch {A} (body : M A) (catch_DWORD : DWORD -> M A)
    (catch_all : M A) : M A :=
  fun p =>
    match body p with
    | (Normal a, p1, t1) => (Normal a, p1, t1)
    | (Thrown (ExDWORD dwError), p1, t1) =>
        match catch_DWORD dwError p1 with (r, p2, t2) => (r, p2, t1 ++ t2) end
    | (Thrown ExOther, p1, t1) =>
        match catch_all p1 with (r, p2, t2) => (r, p2, t1 ++ t2) end
    end.

Declare Scope svc_scope.
Delimit Scope svc_scope with svc.
Notation "x <- c1 ;; c2" := (bind c1 (fun x => c2))
  (at level 61, c1 at next level, right associativity) : svc_scope.
Notation "c1 ;; c2" := (bind c1 (fun _ => c2))
  (at level 61, right associativity) : svc_scope.
Local Open Scope svc_scope.

Definition result_of {A} (x : result A * process * list event) : result A :=
  fst (fst x).
Definition process_of {A} (x : result A * process * list event) : process :=
  snd (fst x).
Definition trace_of {A} (x : result A * process * list event) : list event :=
  snd x.

(** Invoking a callback: the call is observed, then its outcome decides. *)
Definition invoke (c : callback) (o : outcome) : M unit :=
  emit (EvCallback c) ;;
  match o with
  | Returns => ret tt
  | Throws e => throw e
  end.

(** ** Helper functions of the class *)

(** Modelled from the spec: the default arguments of [setServiceStatus]
    are declared in winService.hpp, which is not among the sources; the
    spec gives them as [report(handle, state, exitCode=0, waitHintMs=0)]. *)
Definition default_dwWin32ExitCode : DWORD := NO_ERROR.

(** Modelled from the spec: the default wait hint of the same declaration
    in winService.hpp, [waitHintMs=0]. *)
Definition default_dwWaitHint : DWORD := 0.

(** [winService::setServiceStatus]: fills the status structure, takes the
    checkpoint from the static counter unless the state is running or
    stopped, and reports to the SCM. *)
Definition setServiceStatus (dwCurrentState dwWin32ExitCode dwWaitHint : DWORD)
    : M unit :=
  fun p =>
    let svc := service_ p in
    let old := status_ svc in
    let settled := running_or_stopped dwCurrentState in
    let st :=
      {| dwServiceType := dwServiceType old;
         dwCurrentState := dwCurrentState;
         dwControlsAccepted := dwControlsAccepted old;
         dwWin32ExitCode := dwWin32ExitCode;
         dwServiceSpecificExitCode := dwServiceSpecificExitCode old;
         dwCheckPoint := if settled then 0 else static_dwCheckPoint p;
         dwWaitHint := dwWaitHint |} in
    (Normal tt,
     {| service_ :=
          {| name_ := name_ svc;
             statusHandle_ := statusHandle_ svc;
             status_ := st |};
        static_dwCheckPoint :=
          if settled then static_dwCheckPoint p
          else wrap32 (static_dwCheckPoint p + 1);
        os_event_source := os_event_source p |},
     [EvSetServiceStatus (statusHandle_ svc) st]).

(** The calls that leave the optional arguments out. *)
Definition setServiceStatus1 (dwCurrentState : DWORD) : M unit :=
  setServiceStatus dwCurrentState default_dwWin32ExitCode default_dwWaitHint.
Definition setServiceStatus2 (dwCurrentState dwWin32ExitCode : DWORD) : M unit :=
  setServiceStatus dwCurrentState dwWin32ExitCode default_dwWaitHint.

(** [winService::writeEventLogEntry]: the event is reported only when an
    event source could be registered. *)
Definition writeEventLogEntry (pszMessage : string) (wType : WORD) : M unit :=
  p <- get ;;
  emit (EvRegisterEventSource (name_ (service_ p))) ;;
  let hEventSource := os_event_source p in
  if truthy hEventSource then
    emit (EvReportEvent hEventSource wType [name_ (service_ p); pszMessage]) ;;
    emit (EvDeregisterEventSource hEventSource)
  else ret tt.

(** ["%08lx"]: eight lower-case hexadecimal digits of a [DWORD]. *)
Definition hex_digit (d : Z) : ascii :=
  match d with
  | 0 => "0" | 1 => "1" | 2 => "2" | 3 => "3" | 4 => "4" | 5 => "5"
  | 6 => "6" | 7 => "7" | 8 => "8" | 9 => "9" | 10 => "a" | 11 => "b"
  | 12 => "c" | 13 => "d" | 14 => "e" | _ => "f"
  end%char.

Fixpoint hex_digits (n : nat) (z : Z) (acc : string) : string :=
  match n with
  | O => acc
  | S n' => hex_digits n' (z / 16) (String (hex_digit (z mod 16)) acc)
  end.

Definition hex8 (z : DWORD) : string := hex_digits 8 z EmptyString.

(** [winService::writeErrorLogEntry]: [StringCchPrintf] into a buffer of
    260 characters keeps at most 259 of them. *)
Definition writeErrorLogEntry (pszFunction : string) (dwError : DWORD) : M unit :=
  let szMessage :=
    substring 0 259
      (pszFunction ++ (" failed w/err 0x" ++ hex8 dwError))%string in
  writeEventLogEntry szMessage EVENTLOG_ERROR_TYPE.

(** ** Constructor *)

(** [winService::winService]: every member of the object is set here; a
    null name pointer ([None]) becomes the empty string. *)
Definition winService (pszServiceName : option string)
    (fCanStop fCanShutdown fCanPauseContinue : BOOL) : winService_t :=
  let dwControlsAccepted0 := 0 in
  let dwControlsAccepted1 :=
    if truthy fCanStop
    then Z.lor dwControlsAccepted0 SERVICE_ACCEPT_STOP
    else dwControlsAccepted0 in
  let dwControlsAccepted2 :=
    if truthy fCanShutdown
    then Z.lor dwControlsAccepted1 SERVICE_ACCEPT_SHUTDOWN
    else dwControlsAccepted1 in
  let dwControlsAccepted3 :=
    if truthy fCanPauseContinue
    then Z.lor dwControlsAccepted2 SERVICE_ACCEPT_PAUSE_CONTINUE
    else dwControlsAccepted2 in
  {| name_ := match pszServiceName with None => EmptyString | Some s => s end;
     statusHandle_ := NULL;
     status_ :=
       {| dwServiceType := SERVICE_WIN32_OWN_PROCESS;
          dwCurrentState := SERVICE_START_PENDING;
          dwControlsAccepted := dwControlsAccepted3;
          dwWin32ExitCode := NO_ERROR;
          dwServiceSpecificExitCode := 0;
          dwCheckPoint := 0;
          dwWaitHint := 0 |} |}.

(** The process once [winService::run] has bound the singleton
    ([service_ = &service]) and before the dispatcher delivers anything:
    the static counter of [setServiceStatus] has its initial value 1. *)
Definition initial_process (service : winService_t) (hEventSource : HANDLE)
    : process :=
  {| service_ := service;
     static_dwCheckPoint := 1;
     os_event_source := hEventSource |}.

(** ** Start, stop, pause, continue and shutdown *)

(** Each function takes the outcome its callback has on this invocation. *)

Definition start (onStart : outcome) (dwArgc : DWORD) (pszArgv : list string)
    : M unit :=
  try_catch
    (setServiceStatus1 SERVICE_START_PENDING ;;
     invoke (OnStart dwArgc pszArgv) onStart ;;
     setServiceStatus1 SERVICE_RUNNING)
    (fun dwError =>
       writeErrorLogEntry "Service Start" dwError ;;
       setServiceStatus2 SERVICE_STOPPED dwError)
    (writeEventLogEntry "Service failed to start." EVENTLOG_ERROR_TYPE ;;
     setServiceStatus1 SERVICE_STOPPED).

Definition stop (onStop : outcome) : M unit :=
  p <- get ;;
  let dwOriginalState := dwCurrentState (status_ (service_ p)) in
  try_catch
    (setServiceStatus1 SERVICE_STOP_PENDING ;;
     invoke OnStop onStop ;;
     setServiceStatus1 SERVICE_STOPPED)
    (fun dwError =>
       writeErrorLogEntry "Service Stop" dwError ;;
       setServiceStatus1 dwOriginalState)
    (writeEventLogEntry "Service failed to stop." EVENTLOG_ERROR_TYPE ;;
     setServiceStatus1 dwOriginalState).

Definition pause (onPause : outcome) : M unit :=
  try_catch
    (setServiceStatus1 SERVICE_PAUSE_PENDING ;;
     invoke OnPause onPause ;;
     setServiceStatus1 SERVICE_PAUSED)
    (fun dwError =>
       writeErrorLogEntry "Service Pause" dwError ;;
       setServiceStatus1 SERVICE_RUNNING)
    (writeEventLogEntry "Service failed to pause." EVENTLOG_ERROR_TYPE ;;
     setServiceStatus1 SERVICE_RUNNING).

Definition _continue (onContinue : outcome) : M unit :=
  try_catch
    (setServiceStatus1 SERVICE_CONTINUE_PENDING ;;
     invoke OnContinue onContinue ;;
     setServiceStatus1 SERVICE_RUNNING)
    (fun dwError =>
       writeErrorLogEntry "Service Continue" dwError ;;
       setServiceStatus1 SERVICE_PAUSED)
    (writeEventLogEntry "Service failed to resume." EVENTLOG_ERROR_TYPE ;;
     setServiceStatus1 SERVICE_PAUSED).

Definition shutdown (onShutdown : outcome) : M unit :=
  try_catch
    (invoke OnShutdown onShutdown ;;
     setServiceStatus1 SERVICE_STOPPED)
    (fun dwError => writeErrorLogEntry "Service Shutdown" dwError)
    (writeEventLogEntry "Service failed to shut down." EVENTLOG_ERROR_TYPE).

(** ** Entry points called by the SCM *)

(** [winService::ServiceCtrlHandler]; [o] is the outcome of the callback
    the control code reaches, if it reaches one. *)
Definition ServiceCtrlHandler (dwCtrl : DWORD) (o : outcome) : M unit :=
  if dwCtrl =? SERVICE_CONTROL_STOP then stop o
  else if dwCtrl =? SERVICE_CONTROL_PAUSE then pause o
  else if dwCtrl =? SERVICE_CONTROL_CONTINUE then _continue o
  else if dwCtrl =? SERVICE_CONTROL_SHUTDOWN then shutdown o
  else if dwCtrl =? SERVICE_CONTROL_INTERROGATE then ret tt
  else ret tt.

(** [winService::ServiceMain]; [hStatus] is what
    [RegisterServiceCtrlHandler] returns and [dwLastError] what
    [GetLastError] would answer.  A null handle is thrown out of the
    function as a [DWORD]. *)
Definition ServiceMain (hStatus : HANDLE) (dwLastError : DWORD)
    (onStart : outcome) (dwArgc : DWORD) (pszArgv : list string) : M unit :=
  p <- get ;;
  emit (EvRegisterServiceCtrlHandler (name_ (service_ p))) ;;
  (fun p =>
     (Normal tt,
      {| service_ :=
           {| name_ := name_ (service_ p);
              statusHandle_ := hStatus;
              status_ := status_ (service_ p) |};
         static_dwCheckPoint := static_dwCheckPoint p;
         os_event_source := os_event_source p |},
      [])) ;;
  if hStatus =? NULL then throw (ExDWORD dwLastError)
  else start onStart dwArgc pszArgv.

(** ** The control-request source *)

(** A request the SCM delivers, with the outcome of the callback it
    reaches: the start of the service, or a control code. *)
Inductive request :=
| ReqStart (onStart : outcome) (dwArgc : DWORD) (pszArgv : list string)
| ReqControl (dwCtrl : DWORD) (o : outcome).

Definition deliver (r : request) : M unit :=
  match r with
  | ReqStart o dwArgc pszArgv => start o dwArgc pszArgv
  | ReqControl dwCtrl o => ServiceCtrlHandler dwCtrl o
  end.

(** Requests are delivered one at a time, each after the previous one has
    returned. *)
Fixpoint dispatch (rs : list request) : M unit :=
  match rs with
  | [] => ret tt
  | r :: rs' => deliver r ;; dispatch rs'
  end.

(** ** Reading a trace *)

(** The status structures handed to [::SetServiceStatus], in order. *)
Fixpoint reports (t : list event) : list SERVICE_STATUS :=
  match t with
  | [] => []
  | EvSetServiceStatus _ s :: t' => s :: reports t'
  | _ :: t' => reports t'
  end.

(** The event-log calls of a trace. *)
Definition is_log_event (e : event) : bool :=
  match e with
  | EvRegisterEventSource _ | EvReportEvent _ _ _ | EvDeregisterEventSource _ => true
  | _ => false
  end.

Definition log_events (t : list event) : list event := filter is_log_event t.

(** The callbacks invoked in a trace. *)
Fixpoint callbacks (t : list event) : list callback :=
  match t with
  | [] => []
  | EvCallback c :: t' => c :: callbacks t'
  | _ :: t' => callbacks t'
  end.

Definition last_report (t : list event) : option SERVICE_STATUS :=
  last (map Some (reports t)) None.

Definition current_state (p : process) : DWORD :=
  dwCurrentState (status_ (service_ p)).

(** ** Properties of a sequence of reports *)

(** The checkpoint grows from any report of a pending state to any later
    report of a pending state; reports that follow one another directly
    are the case [j = S i]. *)
Definition checkpoints_increase (rs : list SERVICE_STATUS) : Prop :=
  forall (i j : nat) (si sj : SERVICE_STATUS),
    (i < j)%nat ->
    nth_error rs i = Some si ->
    nth_error rs j = Some sj ->
    is_pending (dwCurrentState si) = true ->
    is_pending (dwCurrentState sj) = true ->
    dwCheckPoint si < dwCheckPoint sj.

(** Reports of the running and of the stopped state carry checkpoint 0. *)
Definition baseline_when_settled (rs : list SERVICE_STATUS) : Prop :=
  forall s : SERVICE_STATUS,
    In s rs ->
    running_or_stopped (dwCurrentState s) = true ->
    dwCheckPoint s = 0.

(** The value of the static counter after a sequence of reports that
    found it at [c]. *)
Fixpoint advance (c : DWORD) (rs : list SERVICE_STATUS) : DWORD :=
  match rs with
  | [] => c
  | s :: rs' =>
      advance (if running_or_stopped (dwCurrentState s) then c else wrap32 (c + 1)) rs'
  end.

(** A sequence of reports whose checkpoints are the ones the static
    counter dictates, starting from [c]. *)
Fixpoint counted (c : DWORD) (rs : list SERVICE_STATUS) : Prop :=
  match rs with
  | [] => True
  | s :: rs' =>
      if running_or_stopped (dwCurrentState s)
      then dwCheckPoint s = 0 /\ counted c rs'
      else dwCheckPoint s = c /\ counted (wrap32 (c + 1)) rs'
  end.

(** A computation keeps the static counter in step with its reports. *)
Definition tracks {A} (m : M A) : Prop :=
  forall p : process,
    counted (static_dwCheckPoint p) (reports (trace_of (m p))) /\
    static_dwCheckPoint (process_of (m p)) =
      advance (static_dwCheckPoint p) (reports (trace_of (m p))).

(** What a report shows of the state machine: state, exit code and
    checkpoint. *)
Definition shown (s : SERVICE_STATUS) : DWORD * DWORD * DWORD :=
  (dwCurrentState s, dwWin32ExitCode s, dwCheckPoint s).

(** What the catch blocks of a transition hand to the event log: the
    formatted code for a [DWORD], a fixed sentence otherwise. *)
Definition log_failure (pszFunction generic : string) (e : exn) : M unit :=
  match e with
  | ExDWORD dwError => writeErrorLogEntry pszFunction dwError
  | ExOther => writeEventLogEntry generic EVENTLOG_ERROR_TYPE
  end.

(** The event-log calls of one failure, and of an outcome. *)
Definition log_trace (pszFunction generic : string) (e : exn) (p : process)
    : list event :=
  trace_of (log_failure pszFunction generic e p).

Definition log_of_outcome (pszFunction generic : string) (o : outcome)
    (p : process) : list event :=
  match o with
  | Returns => []
  | Throws e => log_trace pszFunction generic e p
  end.

(** ** Processes and request sequences used as examples *)

(** A service that can be stopped, paused and continued. *)
Definition wotan_service : winService_t :=
  winService (Some "wotan"%string) 1 0 1.

Definition fresh_process : process := initial_process wotan_service 77.

Definition running_process : process :=
  process_of (dispatch [ReqStart Returns 0 []] fresh_process).

Definition paused_process : process :=
  process_of
    (dispatch [ReqStart Returns 0 []; ReqControl SERVICE_CONTROL_PAUSE Returns]
       fresh_process).

(** Start (success), Pause (success), Continue (failure with code 5). *)
Definition scenario : list request :=
  [ReqStart Returns 0 [];
   ReqControl SERVICE_CONTROL_PAUSE Returns;
   ReqControl SERVICE_CONTROL_CONTINUE (Throws (ExDWORD 5))].

(** Stop requests that fail, delivered while the service has not started. *)
Definition stop_failures (n : nat) : list request :=
  repeat (ReqControl SERVICE_CONTROL_STOP (Throws ExOther)) n.

(** The process after [n] failed stop requests on a process that is in
    the start-pending state. *)
Definition after_stop_failures (n : Z) (p : process) : process :=
  if n =? 0 then p
  else
    {| service_ :=
         {| name_ := name_ (service_ p);
            statusHandle_ := statusHandle_ (service_ p);
            status_ :=
              {| dwServiceType := dwServiceType (status_ (service_ p));
                 dwCurrentState := SERVICE_START_PENDING;
                 dwControlsAccepted := dwControlsAccepted (status_ (service_ p));
                 dwWin32ExitCode := NO_ERROR;
                 dwServiceSpecificExitCode :=
                   dwServiceSpecificExitCode (status_ (service_ p));
                 dwCheckPoint := wrap32 (static_dwCheckPoint p + 2 * n - 1);
                 dwWaitHint := 0 |} |};
       static_dwCheckPoint := wrap32 (static_dwCheckPoint p + 2 * n);
       os_event_source := os_event_source p |}.

(** ** Names for the steps of a transition *)

(** The process after a call of [setServiceStatus] that leaves the wait
    hint out, and the call of [::SetServiceStatus] it makes. *)
Definition status_set (dwCurrentState dwWin32ExitCode : DWORD) (p : process)
    : process :=
  process_of (setServiceStatus2 dwCurrentState dwWin32ExitCode p).

Definition status_call (dwCurrentState dwWin32ExitCode : DWORD) (p : process)
    : event :=
  EvSetServiceStatus (statusHandle_ (service_ p))
    (status_ (service_ (status_set dwCurrentState dwWin32ExitCode p))).

(** The exit code the start path reports for a failure: the thrown code,
    or the default of [setServiceStatus] when nothing numeric was thrown. *)
Definition start_exit_code (e : exn) : DWORD :=
  match e with
  | ExDWORD dwError => dwError
  | ExOther => default_dwWin32ExitCode
  end.

(** The message a catch block logs. *)
Definition failure_message (pszFunction generic : string) (e : exn) : string :=
  match e with
  | ExDWORD dwError =>
      substring 0 259
        (pszFunction ++ (" failed w/err 0x" ++ hex8 dwError))%string
  | ExOther => generic
  end.

(** How many reports of a sequence take their checkpoint from the static
    counter and advance it: all but those of the running or stopped state. *)
Definition increments (rs : list SERVICE_STATUS) : Z :=
  Z.of_nat
    (List.length (filter (fun s => negb (running_or_stopped (dwCurrentState s))) rs)).

(** What a report shows of its state and checkpoint. *)
Definition state_and_checkpoint (s : SERVICE_STATUS) : DWORD * DWORD :=
  (dwCurrentState s, dwCheckPoint s).

(** As many failed stop requests before the start as it takes the static
    counter, which starts at 1 and advances twice per request, to pass
    its largest value during the last one. *)
Definition wrapping_requests : list request :=
  stop_failures (S (Z.to_nat 2147483647)).

(** ** Further readings of a process, a request and a trace *)

(** The members no transition is meant to touch: the name, the status
    handle, the service type, the accepted controls, the service-specific
    exit code, and the event source of the environment. *)
Definition fixed_members (p : process)
    : string * HANDLE * (DWORD * DWORD * DWORD) * HANDLE :=
  (name_ (service_ p), statusHandle_ (service_ p),
   (dwServiceType (status_ (service_ p)),
    dwControlsAccepted (status_ (service_ p)),
    dwServiceSpecificExitCode (status_ (service_ p))),
   os_event_source p).

(** A call of [::SetServiceStatus] that uses the handle of [p] and keeps
    the type, the accepted controls and the service-specific exit code of
    [p], with the default wait hint; other events conform trivially. *)
Definition call_conforms (p : process) (e : event) : Prop :=
  match e with
  | EvSetServiceStatus h s =>
      h = statusHandle_ (service_ p) /\
      dwServiceType s = dwServiceType (status_ (service_ p)) /\
      dwControlsAccepted s = dwControlsAccepted (status_ (service_ p)) /\
      dwServiceSpecificExitCode s =
        dwServiceSpecificExitCode (status_ (service_ p)) /\
      dwWaitHint s = default_dwWaitHint
  | _ => True
  end.

(** The callback a request reaches, if any. *)
Definition callback_of (r : request) : list callback :=
  match r with
  | ReqStart _ dwArgc pszArgv => [OnStart dwArgc pszArgv]
  | ReqControl dwCtrl _ =>
      if dwCtrl =? SERVICE_CONTROL_STOP then [OnStop]
      else if dwCtrl =? SERVICE_CONTROL_PAUSE then [OnPause]
      else if dwCtrl =? SERVICE_CONTROL_CONTINUE then [OnContinue]
      else if dwCtrl =? SERVICE_CONTROL_SHUTDOWN then [OnShutdown]
      else []
  end.

(** Whether the callback a request reaches throws. *)
Definition callback_fails (r : request) : bool :=
  match r with
  | ReqStart (Throws _) _ _ => true
  | ReqControl dwCtrl (Throws _) =>
      match callback_of r with [] => false | _ => true end
  | _ => false
  end.




(** An error entry written through the event source of [p]. *)
Definition error_entry_of (p : process) (e : event) : Prop :=
  match e with
  | EvReportEvent h wType lpszStrings =>
      h = os_event_source p /\ wType = EVENTLOG_ERROR_TYPE /\
      exists msg : string, lpszStrings = [name_ (service_ p); msg]
  | _ => True
  end.

(** The same process in an environment whose [RegisterEventSource]
    answers [h]. *)
Definition with_event_source (h : HANDLE) (p : process) : process :=
  {| service_ := service_ p;
     static_dwCheckPoint := static_dwCheckPoint p;
     os_event_source := h |}.

(** The same process with the status handle [h], as [ServiceMain] stores
    it. *)
Definition with_status_handle (h : HANDLE) (p : process) : process :=
  {| service_ :=
       {| name_ := name_ (service_ p);
          statusHandle_ := h;
          status_ := status_ (service_ p) |};
     static_dwCheckPoint := static_dwCheckPoint p;
     os_event_source := os_event_source p |}.

(** Reading hexadecimal digits back, to say what [hex8] prints. *)
Fixpoint digit_position (c : ascii) (digits : string) (i : Z) : option Z :=
  match digits with
  | EmptyString => None
  | String d digits' =>
      if Ascii.eqb c d then Some i else digit_position c digits' (i + 1)
  end.

Definition unhex_digit (c : ascii) : option Z :=
  digit_position c "0123456789abcdef" 0.

Fixpoint unhex_from (acc : Z) (s : string) : option Z :=
  match s with
  | EmptyString => Some acc
  | String c s' =>
      match unhex_digit c with
      | Some d => unhex_from (16 * acc + d) s'
      | None => None
      end
  end.

Definition unhex (s : string) : option Z := unhex_from 0 s.

(** The same process with another mask of accepted controls, as another
    choice of capabilities at construction gives. *)
Definition with_controls_accepted (dwAccepted : DWORD) (p : process)
    : process :=
  {| service_ :=
       {| name_ := name_ (service_ p);
          statusHandle_ := statusHandle_ (service_ p);
          status_ :=
            {| dwServiceType := dwServiceType (status_ (service_ p));
               dwCurrentState := dwCurrentState (status_ (service_ p));
               dwControlsAccepted := dwAccepted;
               dwWin32ExitCode := dwWin32ExitCode (status_ (service_ p));
               dwServiceSpecificExitCode :=
                 dwServiceSpecificExitCode (status_ (service_ p));
               dwCheckPoint := dwCheckPoint (status_ (service_ p));
               dwWaitHint := dwWaitHint (status_ (service_ p)) |} |};
     static_dwCheckPoint := static_dwCheckPoint p;
     os_event_source := os_event_source p |}.

(** * Properties *)

(** ** Running the helper functions *)

Lemma setServiceStatus2_run (s x : DWORD) (p : process) :
  setServiceStatus2 s x p = (Normal tt, status_set s x p, [status_call s x p]).
Proof. reflexivity. Qed.

Lemma setServiceStatus1_run (s : DWORD) (p : process) :
  setServiceStatus1 s p =
    (Normal tt, status_set s NO_ERROR p, [status_call s NO_ERROR p]).
Proof. reflexivity. Qed.

Lemma status_set_shown (s x : DWORD) (p : process) :
  shown (status_ (service_ (status_set s x p))) =
    (s, x, if running_or_stopped s then 0 else static_dwCheckPoint p).
Proof. reflexivity. Qed.

Lemma status_set_counter (s x : DWORD) (p : process) :
  static_dwCheckPoint (status_set s x p) =
    if running_or_stopped s then static_dwCheckPoint p
    else wrap32 (static_dwCheckPoint p + 1).
Proof. reflexivity. Qed.

Lemma status_set_env (s x : DWORD) (p : process) :
  name_ (service_ (status_set s x p)) = name_ (service_ p) /\
  statusHandle_ (service_ (status_set s x p)) = statusHandle_ (service_ p) /\
  os_event_source (status_set s x p) = os_event_source p.
Proof. repeat split. Qed.

(** Logging returns normally, changes nothing, and makes event-log calls
    only; the first of them is the attempt to register the source. *)
Lemma writeEventLogEntry_run (pszMessage : string) (wType : WORD) (p : process) :
  writeEventLogEntry pszMessage wType p =
    (Normal tt, p,
     EvRegisterEventSource (name_ (service_ p)) ::
     if truthy (os_event_source p)
     then [EvReportEvent (os_event_source p) wType
             [name_ (service_ p); pszMessage];
           EvDeregisterEventSource (os_event_source p)]
     else []).
Proof.
  unfold writeEventLogEntry, bind, get, emit, ret.
  destruct (truthy (os_event_source p)); reflexivity.
Qed.

Lemma log_failure_run (pszFunction generic : string) (e : exn) (p : process) :
  log_failure pszFunction generic e p =
    (Normal tt, p, log_trace pszFunction generic e p).
Proof.
  destruct e; unfold log_trace, log_failure, writeErrorLogEntry;
    rewrite writeEventLogEntry_run; reflexivity.
Qed.

Lemma log_failure_trace (pszFunction generic : string) (e : exn) (p : process) :
  let t := log_trace pszFunction generic e p in
  reports t = [] /\ callbacks t = [] /\ log_events t = t /\ t <> [].
Proof.
  destruct e; unfold log_trace, log_failure, writeErrorLogEntry;
    rewrite writeEventLogEntry_run; unfold trace_of, snd;
    destruct (truthy (os_event_source p)); repeat split; discriminate.
Qed.

(** ** Running the transitions *)

(** Symbolic execution of a transition on a process given by its
    members: everything but the message formatting is unfolded, and the
    answer of [RegisterEventSource] is split on. *)
Ltac run_transition :=
  unfold start, stop, pause, _continue, shutdown, log_trace, log_failure,
    status_call, status_set, try_catch, bind, invoke, writeErrorLogEntry,
    writeEventLogEntry, setServiceStatus1, setServiceStatus2, setServiceStatus,
    get, emit, throw, ret, process_of, trace_of, result_of, start_exit_code;
  cbn -[hex8 substring append wrap32 running_or_stopped];
  match goal with
  | |- context [truthy ?h] => destruct (truthy h); reflexivity
  | _ => reflexivity
  end.

Lemma start_returns (dwArgc : DWORD) (pszArgv : list string) (p : process) :
  let p1 := status_set SERVICE_START_PENDING NO_ERROR p in
  start Returns dwArgc pszArgv p =
    (Normal tt, status_set SERVICE_RUNNING NO_ERROR p1,
     [status_call SERVICE_START_PENDING NO_ERROR p;
      EvCallback (OnStart dwArgc pszArgv);
      status_call SERVICE_RUNNING NO_ERROR p1]).
Proof. reflexivity. Qed.

Lemma start_throws (e : exn) (dwArgc : DWORD) (pszArgv : list string)
    (p : process) :
  let p1 := status_set SERVICE_START_PENDING NO_ERROR p in
  start (Throws e) dwArgc pszArgv p =
    (Normal tt, status_set SERVICE_STOPPED (start_exit_code e) p1,
     status_call SERVICE_START_PENDING NO_ERROR p ::
     EvCallback (OnStart dwArgc pszArgv) ::
     log_trace "Service Start" "Service failed to start." e p ++
     [status_call SERVICE_STOPPED (start_exit_code e) p1]).
Proof. destruct p as [[nm h st] c es], e as [dwError|]; run_transition. Qed.

Lemma stop_returns (p : process) :
  let p1 := status_set SERVICE_STOP_PENDING NO_ERROR p in
  stop Returns p =
    (Normal tt, status_set SERVICE_STOPPED NO_ERROR p1,
     [status_call SERVICE_STOP_PENDING NO_ERROR p;
      EvCallback OnStop;
      status_call SERVICE_STOPPED NO_ERROR p1]).
Proof. reflexivity. Qed.

Lemma stop_throws (e : exn) (p : process) :
  let p1 := status_set SERVICE_STOP_PENDING NO_ERROR p in
  stop (Throws e) p =
    (Normal tt, status_set (current_state p) NO_ERROR p1,
     status_call SERVICE_STOP_PENDING NO_ERROR p ::
     EvCallback OnStop ::
     log_trace "Service Stop" "Service failed to stop." e p ++
     [status_call (current_state p) NO_ERROR p1]).
Proof. destruct p as [[nm h st] c es], e as [dwError|]; run_transition. Qed.

Lemma pause_returns (p : process) :
  let p1 := status_set SERVICE_PAUSE_PENDING NO_ERROR p in
  pause Returns p =
    (Normal tt, status_set SERVICE_PAUSED NO_ERROR p1,
     [status_call SERVICE_PAUSE_PENDING NO_ERROR p;
      EvCallback OnPause;
      status_call SERVICE_PAUSED NO_ERROR p1]).
Proof. reflexivity. Qed.

Lemma pause_throws (e : exn) (p : process) :
  let p1 := status_set SERVICE_PAUSE_PENDING NO_ERROR p in
  pause (Throws e) p =
    (Normal tt, status_set SERVICE_RUNNING NO_ERROR p1,
     status_call SERVICE_PAUSE_PENDING NO_ERROR p ::
     EvCallback OnPause ::
     log_trace "Service Pause" "Service failed to pause." e p ++
     [status_call SERVICE_RUNNING NO_ERROR p1]).
Proof. destruct p as [[nm h st] c es], e as [dwError|]; run_transition. Qed.

Lemma continue_returns (p : process) :
  let p1 := status_set SERVICE_CONTINUE_PENDING NO_ERROR p in
  _continue Returns p =
    (Normal tt, status_set SERVICE_RUNNING NO_ERROR p1,
     [status_call SERVICE_CONTINUE_PENDING NO_ERROR p;
      EvCallback OnContinue;
      status_call SERVICE_RUNNING NO_ERROR p1]).
Proof. reflexivity. Qed.

Lemma continue_throws (e : exn) (p : process) :
  let p1 := status_set SERVICE_CONTINUE_PENDING NO_ERROR p in
  _continue (Throws e) p =
    (Normal tt, status_set SERVICE_PAUSED NO_ERROR p1,
     status_call SERVICE_CONTINUE_PENDING NO_ERROR p ::
     EvCallback OnContinue ::
     log_trace "Service Continue" "Service failed to resume." e p ++
     [status_call SERVICE_PAUSED NO_ERROR p1]).
Proof. destruct p as [[nm h st] c es], e as [dwError|]; run_transition. Qed.

Lemma shutdown_returns (p : process) :
  shutdown Returns p =
    (Normal tt, status_set SERVICE_STOPPED NO_ERROR p,
     [EvCallback OnShutdown; status_call SERVICE_STOPPED NO_ERROR p]).
Proof. reflexivity. Qed.

Lemma shutdown_throws (e : exn) (p : process) :
  shutdown (Throws e) p =
    (Normal tt, p,
     EvCallback OnShutdown ::
     log_trace "Service Shutdown" "Service failed to shut down." e p).
Proof. destruct p as [[nm h st] c es], e as [dwError|]; run_transition. Qed.

(** Reading the reports off a trace. *)
Lemma reports_app (t1 t2 : list event) :
  reports (t1 ++ t2) = reports t1 ++ reports t2.
Proof.
  induction t1 as [|[h s|c|n|h w l|h|n] t1 IH]; cbn [reports app];
    rewrite ?IH; reflexivity.
Qed.

Lemma callbacks_app (t1 t2 : list event) :
  callbacks (t1 ++ t2) = callbacks t1 ++ callbacks t2.
Proof.
  induction t1 as [|[h s|c|n|h w l|h|n] t1 IH]; cbn [callbacks app];
    rewrite ?IH; reflexivity.
Qed.

Lemma log_events_app (t1 t2 : list event) :
  log_events (t1 ++ t2) = log_events t1 ++ log_events t2.
Proof. apply filter_app. Qed.

(** ** The constructor *)

(** C10: right after construction the state is start-pending, the type
    own-process, the exit codes, checkpoint and wait hint 0, the status
    handle null; the accepted controls have exactly the bits of the
    capabilities that are true (bit 0 stop, bit 1 pause/continue, bit 2
    shutdown); a null name becomes the empty string, any other name is
    kept; and the process the dispatcher starts from holds this object,
    with the static counter at 1. *)
Theorem C10_constructor_state
    (pszServiceName : option string)
    (fCanStop fCanShutdown fCanPauseContinue : BOOL) :
  let svc := winService pszServiceName fCanStop fCanShutdown fCanPauseContinue in
  status_ svc =
    {| dwServiceType := SERVICE_WIN32_OWN_PROCESS;
       dwCurrentState := SERVICE_START_PENDING;
       dwControlsAccepted :=
         Z.lor (if truthy fCanStop then SERVICE_ACCEPT_STOP else 0)
           (Z.lor (if truthy fCanShutdown then SERVICE_ACCEPT_SHUTDOWN else 0)
              (if truthy fCanPauseContinue
               then SERVICE_ACCEPT_PAUSE_CONTINUE else 0));
       dwWin32ExitCode := NO_ERROR;
       dwServiceSpecificExitCode := 0;
       dwCheckPoint := 0;
       dwWaitHint := 0 |} /\
  (forall n : Z,
     Z.testbit (dwControlsAccepted (status_ svc)) n =
       (truthy fCanStop && (n =? 0)) ||
       (truthy fCanPauseContinue && (n =? 1)) ||
       (truthy fCanShutdown && (n =? 2))) /\
  statusHandle_ svc = NULL /\
  name_ svc = match pszServiceName with None => EmptyString | Some s => s end /\
  winService None fCanStop fCanShutdown fCanPauseContinue =
    winService (Some EmptyString) fCanStop fCanShutdown fCanPauseContinue /\
  forall hEventSource : HANDLE,
    static_dwCheckPoint (initial_process svc hEventSource) = 1 /\
    service_ (initial_process svc hEventSource) = svc.
Proof.
  cbv zeta. unfold winService.
  cbn [status_ statusHandle_ name_ dwControlsAccepted].
  repeat split.
  - destruct (truthy fCanStop), (truthy fCanShutdown), (truthy fCanPauseContinue);
      reflexivity.
  - intro n.
    destruct (truthy fCanStop), (truthy fCanShutdown), (truthy fCanPauseContinue);
      cbn [andb orb];
      destruct n as [|[[q|q|]|[q|q|]|]|q]; reflexivity.
Qed.

(** ** The control handler *)

(** C8: a control code other than stop, pause, continue, shutdown and
    interrogate leaves the whole process, and so the service state, as it
    was, returns normally, and makes no call at all: no report. *)
Theorem C8_unknown_control_ignored (dwCtrl : DWORD) (o : outcome) (p : process) :
  dwCtrl <> SERVICE_CONTROL_STOP ->
  dwCtrl <> SERVICE_CONTROL_PAUSE ->
  dwCtrl <> SERVICE_CONTROL_CONTINUE ->
  dwCtrl <> SERVICE_CONTROL_SHUTDOWN ->
  dwCtrl <> SERVICE_CONTROL_INTERROGATE ->
  ServiceCtrlHandler dwCtrl o p = (Normal tt, p, []) /\
  current_state (process_of (ServiceCtrlHandler dwCtrl o p)) = current_state p /\
  reports (trace_of (ServiceCtrlHandler dwCtrl o p)) = [].
Proof.
  intros Hstop Hpause Hcont Hshut Hint.
  assert (E : ServiceCtrlHandler dwCtrl o p = (Normal tt, p, [])).
  { unfold ServiceCtrlHandler.
    apply Z.eqb_neq in Hstop, Hpause, Hcont, Hshut, Hint.
    rewrite Hstop, Hpause, Hcont, Hshut, Hint. reflexivity. }
  rewrite E. repeat split.
Qed.

Lemma C8_unknown_control_ignored_witness :
  (128 <> SERVICE_CONTROL_STOP /\ 128 <> SERVICE_CONTROL_PAUSE /\
   128 <> SERVICE_CONTROL_CONTINUE /\ 128 <> SERVICE_CONTROL_SHUTDOWN /\
   128 <> SERVICE_CONTROL_INTERROGATE) /\
  ServiceCtrlHandler 128 (Throws ExOther) running_process =
    (Normal tt, running_process, []) /\
  current_state
    (process_of (ServiceCtrlHandler 128 (Throws ExOther) running_process)) =
    current_state running_process /\
  reports (trace_of (ServiceCtrlHandler 128 (Throws ExOther) running_process)) = [].
Proof.
  assert (H : 128 <> SERVICE_CONTROL_STOP /\ 128 <> SERVICE_CONTROL_PAUSE /\
              128 <> SERVICE_CONTROL_CONTINUE /\ 128 <> SERVICE_CONTROL_SHUTDOWN /\
              128 <> SERVICE_CONTROL_INTERROGATE)
    by (repeat split; discriminate).
  split; [exact H|].
  destruct H as (H1 & H2 & H3 & H4 & H5).
  exact (C8_unknown_control_ignored 128 (Throws ExOther) running_process
           H1 H2 H3 H4 H5).
Defined.

(** C5, as stated, fails: on an interrogate request the running service
    sends no report at all, so none that repeats the current state. *)
Lemma C5_interrogate_sends_no_report :
  current_state running_process = SERVICE_RUNNING /\
  ~ (exists s : SERVICE_STATUS,
       In s (reports (trace_of
               (ServiceCtrlHandler SERVICE_CONTROL_INTERROGATE Returns
                  running_process))) /\
       dwCurrentState s = current_state running_process).
Proof.
  split; [reflexivity|].
  intros [s [Hin _]]. exact Hin.
Qed.

(** C5, amended: an interrogate request leaves the whole process, and so
    the service state, as it was, returns normally, and makes no call: no
    status report is sent. *)
Theorem C5_interrogate_is_silent (o : outcome) (p : process) :
  ServiceCtrlHandler SERVICE_CONTROL_INTERROGATE o p = (Normal tt, p, []) /\
  current_state (process_of (ServiceCtrlHandler SERVICE_CONTROL_INTERROGATE o p)) =
    current_state p /\
  reports (trace_of (ServiceCtrlHandler SERVICE_CONTROL_INTERROGATE o p)) = [].
Proof. repeat split. Qed.

(** ** Failure of a callback *)

Ltac read_reports :=
  unfold trace_of, process_of, result_of, snd, fst, status_call;
  cbn [reports callbacks app];
  rewrite ?reports_app, ?callbacks_app;
  repeat match goal with
    | |- context [log_trace ?f ?g ?e ?p] =>
        let H := fresh "Hlog" in
        let Hr := fresh "Hr" in
        let Hc := fresh "Hc" in
        pose proof (log_failure_trace f g e p) as H; cbv zeta in H;
        destruct H as (Hr & Hc & _ & _);
        progress rewrite ?Hr, ?Hc; clear Hr Hc
    end;
  cbn [reports callbacks app map].

(** C1, as stated, fails: a pause request that reaches the service while
    it is paused, with [onPause] throwing, ends with a report of the
    running state, not of the paused state that was current before the
    pending report. *)
Lemma C1_failed_pause_while_paused :
  current_state paused_process = SERVICE_PAUSED /\
  map dwCurrentState
    (reports (trace_of
       (ServiceCtrlHandler SERVICE_CONTROL_PAUSE (Throws (ExDWORD 5))
          paused_process))) =
    [SERVICE_PAUSE_PENDING; SERVICE_RUNNING] /\
  option_map dwCurrentState
    (last_report (trace_of
       (ServiceCtrlHandler SERVICE_CONTROL_PAUSE (Throws (ExDWORD 5))
          paused_process))) <>
    Some (current_state paused_process).
Proof.
  split; [reflexivity|]. split; [reflexivity|].
  vm_compute. discriminate.
Qed.

(** C1, amended: when the callback throws, whatever it throws, [stop]
    reports stop-pending and then the state that was current when it was
    called, [pause] reports pause-pending and then running, [_continue]
    reports continue-pending and then paused, whatever the state was
    before; the last reported state is also the current state after the
    transition. *)
Theorem C1_rollback_on_failure (e : exn) (p : process) :
  (map dwCurrentState (reports (trace_of (stop (Throws e) p))) =
     [SERVICE_STOP_PENDING; current_state p] /\
   current_state (process_of (stop (Throws e) p)) = current_state p) /\
  (map dwCurrentState (reports (trace_of (pause (Throws e) p))) =
     [SERVICE_PAUSE_PENDING; SERVICE_RUNNING] /\
   current_state (process_of (pause (Throws e) p)) = SERVICE_RUNNING) /\
  (map dwCurrentState (reports (trace_of (_continue (Throws e) p))) =
     [SERVICE_CONTINUE_PENDING; SERVICE_PAUSED] /\
   current_state (process_of (_continue (Throws e) p)) = SERVICE_PAUSED).
Proof.
  rewrite stop_throws, pause_throws, continue_throws.
  repeat split; read_reports; reflexivity.
Qed.

(** C4: when [onStart] throws, [start] reports start-pending and then
    stopped; the stopped report carries the thrown code as exit code when
    a code was thrown, and [NO_ERROR] when something else was; this is
    also the status the service is left with, whatever it was before. *)
Theorem C4_start_failure_stops (e : exn) (dwArgc : DWORD)
    (pszArgv : list string) (p : process) :
  let signaled :=
    match e with ExDWORD dwError => dwError | ExOther => NO_ERROR end in
  map (fun s => (dwCurrentState s, dwWin32ExitCode s))
    (reports (trace_of (start (Throws e) dwArgc pszArgv p))) =
    [(SERVICE_START_PENDING, NO_ERROR); (SERVICE_STOPPED, signaled)] /\
  option_map (fun s => (dwCurrentState s, dwWin32ExitCode s))
    (last_report (trace_of (start (Throws e) dwArgc pszArgv p))) =
    Some (SERVICE_STOPPED, signaled) /\
  current_state (process_of (start (Throws e) dwArgc pszArgv p)) =
    SERVICE_STOPPED /\
  dwWin32ExitCode (status_ (service_ (process_of (start (Throws e) dwArgc pszArgv p)))) =
    signaled.
Proof.
  rewrite start_throws. unfold last_report.
  repeat split; read_reports; destruct e; reflexivity.
Qed.

(** C9: when the callback throws a code, the reports of [stop], [pause]
    and [_continue], the pending one and the rollback one, both carry
    [NO_ERROR] as exit code, whatever the code, and the service is left
    with [NO_ERROR]; only [start] reports the code. *)
Theorem C9_rollback_keeps_exit_code (dwError : DWORD) (p : process) :
  (map dwWin32ExitCode
     (reports (trace_of (stop (Throws (ExDWORD dwError)) p))) =
     [NO_ERROR; NO_ERROR] /\
   dwWin32ExitCode
     (status_ (service_ (process_of (stop (Throws (ExDWORD dwError)) p)))) =
     NO_ERROR) /\
  (map dwWin32ExitCode
     (reports (trace_of (pause (Throws (ExDWORD dwError)) p))) =
     [NO_ERROR; NO_ERROR] /\
   dwWin32ExitCode
     (status_ (service_ (process_of (pause (Throws (ExDWORD dwError)) p)))) =
     NO_ERROR) /\
  (map dwWin32ExitCode
     (reports (trace_of (_continue (Throws (ExDWORD dwError)) p))) =
     [NO_ERROR; NO_ERROR] /\
   dwWin32ExitCode
     (status_ (service_ (process_of (_continue (Throws (ExDWORD dwError)) p)))) =
     NO_ERROR) /\
  forall (dwArgc : DWORD) (pszArgv : list string),
    map dwWin32ExitCode
      (reports (trace_of (start (Throws (ExDWORD dwError)) dwArgc pszArgv p))) =
      [NO_ERROR; dwError].
Proof.
  rewrite stop_throws, pause_throws, continue_throws.
  repeat split; try (read_reports; reflexivity).
  intros dwArgc pszArgv. rewrite start_throws. read_reports. reflexivity.
Qed.

Lemma log_trace_shape (pszFunction generic : string) (e : exn) (p : process) :
  log_trace pszFunction generic e p =
    EvRegisterEventSource (name_ (service_ p)) ::
    if truthy (os_event_source p)
    then [EvReportEvent (os_event_source p) EVENTLOG_ERROR_TYPE
            [name_ (service_ p); failure_message pszFunction generic e];
          EvDeregisterEventSource (os_event_source p)]
    else [].
Proof.
  destruct e; unfold log_trace, log_failure, writeErrorLogEntry;
    rewrite writeEventLogEntry_run; reflexivity.
Qed.

(** The error code is logged as eight hexadecimal digits. *)
Example failure_message_stop_5 :
  failure_message "Service Stop" "Service failed to stop." (ExDWORD 5) =
    "Service Stop failed w/err 0x00000005"%string.
Proof. reflexivity. Qed.

(** C6, as stated, fails: when [onShutdown] throws, the shutdown request
    ends without any report, so without the terminal stopped report, and
    the service is left in the running state. *)
Lemma C6_failed_shutdown_reports_nothing :
  reports (trace_of
    (ServiceCtrlHandler SERVICE_CONTROL_SHUTDOWN (Throws (ExDWORD 5))
       running_process)) = [] /\
  current_state (process_of
    (ServiceCtrlHandler SERVICE_CONTROL_SHUTDOWN (Throws (ExDWORD 5))
       running_process)) = SERVICE_RUNNING /\
  ~ (exists s : SERVICE_STATUS,
       In s (reports (trace_of
               (ServiceCtrlHandler SERVICE_CONTROL_SHUTDOWN (Throws (ExDWORD 5))
                  running_process))) /\
       dwCurrentState s = SERVICE_STOPPED).
Proof.
  split; [reflexivity|]. split; [reflexivity|].
  intros [s [Hin _]]. exact Hin.
Qed.

(** C6, amended: [shutdown] invokes [onShutdown] exactly once and first.
    When the callback returns, one report follows, of the stopped state
    with exit code [NO_ERROR] and checkpoint 0.  When it throws, only the
    event-log calls follow: no report of any kind, the process is left as
    it was.  In neither case is a pending state reported. *)
Theorem C6_shutdown_best_effort (o : outcome) (p : process) :
  trace_of (shutdown o p) =
    EvCallback OnShutdown ::
    match o with
    | Returns => [status_call SERVICE_STOPPED NO_ERROR p]
    | Throws e => log_trace "Service Shutdown" "Service failed to shut down." e p
    end /\
  callbacks (trace_of (shutdown o p)) = [OnShutdown] /\
  map shown (reports (trace_of (shutdown o p))) =
    match o with
    | Returns => [(SERVICE_STOPPED, NO_ERROR, 0)]
    | Throws _ => []
    end /\
  existsb (fun s => is_pending (dwCurrentState s))
    (reports (trace_of (shutdown o p))) = false /\
  process_of (shutdown o p) =
    match o with
    | Returns => status_set SERVICE_STOPPED NO_ERROR p
    | Throws _ => p
    end.
Proof.
  destruct o as [|e].
  - rewrite shutdown_returns. repeat split.
  - rewrite shutdown_throws. repeat split; read_reports; reflexivity.
Qed.

(** ** Containment of failures *)

Lemma start_normal (o : outcome) (dwArgc : DWORD) (pszArgv : list string)
    (p : process) :
  result_of (start o dwArgc pszArgv p) = Normal tt.
Proof. destruct o; [|rewrite start_throws]; reflexivity. Qed.

Lemma stop_normal (o : outcome) (p : process) :
  result_of (stop o p) = Normal tt.
Proof. destruct o; [|rewrite stop_throws]; reflexivity. Qed.

Lemma pause_normal (o : outcome) (p : process) :
  result_of (pause o p) = Normal tt.
Proof. destruct o; [|rewrite pause_throws]; reflexivity. Qed.

Lemma continue_normal (o : outcome) (p : process) :
  result_of (_continue o p) = Normal tt.
Proof. destruct o; [|rewrite continue_throws]; reflexivity. Qed.

Lemma shutdown_normal (o : outcome) (p : process) :
  result_of (shutdown o p) = Normal tt.
Proof. destruct o; [|rewrite shutdown_throws]; reflexivity. Qed.

Lemma ServiceCtrlHandler_normal (dwCtrl : DWORD) (o : outcome) (p : process) :
  result_of (ServiceCtrlHandler dwCtrl o p) = Normal tt.
Proof.
  unfold ServiceCtrlHandler.
  repeat match goal with
    | |- context [if ?b then _ else _] => destruct b
    end;
    auto using stop_normal, pause_normal, continue_normal, shutdown_normal.
Qed.

Lemma log_events_log_trace (pszFunction generic : string) (e : exn)
    (p : process) :
  filter is_log_event (log_trace pszFunction generic e p) =
    log_trace pszFunction generic e p.
Proof. apply (log_failure_trace pszFunction generic e p). Qed.

Ltac read_log :=
  unfold trace_of, snd, status_call, log_of_outcome, log_events;
  cbn [filter is_log_event];
  rewrite ?filter_app, ?log_events_log_trace;
  cbn [filter is_log_event];
  rewrite ?app_nil_r.

(** C3: whatever the callback does (return, throw a code, throw anything
    else), each of [start], [stop], [pause], [_continue] and [shutdown]
    returns normally, and so does the control handler for every control
    code; the event-log calls of the transition are none when the
    callback returns and those of one error entry when it throws. *)
Theorem C3_failures_are_contained (o : outcome) (dwArgc : DWORD)
    (pszArgv : list string) (p : process) :
  (result_of (start o dwArgc pszArgv p) = Normal tt /\
   log_events (trace_of (start o dwArgc pszArgv p)) =
     log_of_outcome "Service Start" "Service failed to start." o p) /\
  (result_of (stop o p) = Normal tt /\
   log_events (trace_of (stop o p)) =
     log_of_outcome "Service Stop" "Service failed to stop." o p) /\
  (result_of (pause o p) = Normal tt /\
   log_events (trace_of (pause o p)) =
     log_of_outcome "Service Pause" "Service failed to pause." o p) /\
  (result_of (_continue o p) = Normal tt /\
   log_events (trace_of (_continue o p)) =
     log_of_outcome "Service Continue" "Service failed to resume." o p) /\
  (result_of (shutdown o p) = Normal tt /\
   log_events (trace_of (shutdown o p)) =
     log_of_outcome "Service Shutdown" "Service failed to shut down." o p) /\
  forall dwCtrl : DWORD, result_of (ServiceCtrlHandler dwCtrl o p) = Normal tt.
Proof.
  repeat split;
    auto using start_normal, stop_normal, pause_normal, continue_normal,
      shutdown_normal, ServiceCtrlHandler_normal.
  all: destruct o as [|e]; [reflexivity|].
  - rewrite start_throws. read_log. reflexivity.
  - rewrite stop_throws. read_log. reflexivity.
  - rewrite pause_throws. read_log. reflexivity.
  - rewrite continue_throws. read_log. reflexivity.
  - rewrite shutdown_throws. read_log. reflexivity.
Qed.

(** By contrast, [ServiceMain] lets the error of a failed registration
    escape: the exception monad does propagate what is not caught. *)
Lemma ServiceMain_null_handle_throws (dwLastError : DWORD) (o : outcome)
    (dwArgc : DWORD) (pszArgv : list string) (p : process) :
  result_of (ServiceMain NULL dwLastError o dwArgc pszArgv p) =
    Thrown (ExDWORD dwLastError) /\
  reports (trace_of (ServiceMain NULL dwLastError o dwArgc pszArgv p)) = [].
Proof. split; reflexivity. Qed.

Lemma ServiceMain_registered (hStatus : HANDLE) (dwLastError : DWORD)
    (o : outcome) (dwArgc : DWORD) (pszArgv : list string) (p : process) :
  hStatus <> NULL ->
  result_of (ServiceMain hStatus dwLastError o dwArgc pszArgv p) = Normal tt.
Proof.
  intro Hh. apply Z.eqb_neq in Hh.
  unfold ServiceMain, bind, get, emit, result_of. cbn [fst snd].
  rewrite Hh.
  match goal with
  | |- context [start o dwArgc pszArgv ?q] =>
      pose proof (start_normal o dwArgc pszArgv q) as Hs;
      unfold result_of in Hs;
      destruct (start o dwArgc pszArgv q) as [[r q'] t]
  end.
  exact Hs.
Qed.

(** ** The checkpoint counter *)

Lemma wrap32_small (z : Z) : 0 <= z < 2 ^ 32 -> wrap32 z = z.
Proof. intro H. unfold wrap32. apply Z.mod_small. exact H. Qed.

Lemma wrap32_add_l (a b : Z) : wrap32 (wrap32 a + b) = wrap32 (a + b).
Proof. unfold wrap32. apply Zplus_mod_idemp_l. Qed.

Lemma is_pending_not_settled (s : DWORD) :
  is_pending s = true -> running_or_stopped s = false.
Proof.
  unfold is_pending, running_or_stopped.
  rewrite !orb_true_iff, !Z.eqb_eq.
  intros [[[-> | ->] | ->] | ->]; reflexivity.
Qed.

Lemma advance_app (c : DWORD) (r1 r2 : list SERVICE_STATUS) :
  advance c (r1 ++ r2) = advance (advance c r1) r2.
Proof.
  revert c. induction r1 as [|s r1 IH]; intro c; cbn [advance app];
    [reflexivity | apply IH].
Qed.

Lemma counted_app (c : DWORD) (r1 r2 : list SERVICE_STATUS) :
  counted c r1 -> counted (advance c r1) r2 -> counted c (r1 ++ r2).
Proof.
  revert c. induction r1 as [|s r1 IH]; intros c H1 H2; cbn [app].
  - exact H2.
  - cbn [counted advance] in *.
    destruct (running_or_stopped (dwCurrentState s));
      destruct H1 as [Hs H1]; split; auto.
Qed.

(** The monad's combinators keep the counter in step. *)
Lemma bind_tracks {A B} (m : M A) (k : A -> M B) :
  tracks m -> (forall a, tracks (k a)) -> tracks (bind m k).
Proof.
  intros Hm Hk p. specialize (Hm p). unfold bind.
  destruct (m p) as [[[a|e] p1] t1]; unfold trace_of, process_of in *;
    cbn [fst snd] in *; [|exact Hm].
  specialize (Hk a p1). unfold trace_of, process_of in Hk.
  destruct (k a p1) as [[r2 p2] t2]. cbn [fst snd] in *.
  destruct Hm as [Hc1 Hs1], Hk as [Hc2 Hs2].
  rewrite reports_app, advance_app. rewrite Hs1 in Hc2, Hs2.
  split; [apply counted_app; assumption | exact Hs2].
Qed.

Lemma ret_tracks {A} (a : A) : tracks (ret a).
Proof. intro p. split; [exact I | reflexivity]. Qed.

Lemma setServiceStatus_tracks (s x h : DWORD) : tracks (setServiceStatus s x h).
Proof.
  intro p. unfold setServiceStatus, trace_of, process_of. cbn.
  destruct (running_or_stopped s); repeat split.
Qed.

Lemma two_reports_track (s1 x1 s2 x2 : DWORD) (p : process) :
  let p1 := status_set s1 x1 p in
  let rs := [status_ (service_ p1); status_ (service_ (status_set s2 x2 p1))] in
  counted (static_dwCheckPoint p) rs /\
  static_dwCheckPoint (status_set s2 x2 p1) = advance (static_dwCheckPoint p) rs.
Proof.
  cbv zeta. unfold status_set, process_of, setServiceStatus2, setServiceStatus.
  cbn. destruct (running_or_stopped s1), (running_or_stopped s2); repeat split.
Qed.

Lemma one_report_tracks (s x : DWORD) (p : process) :
  let rs := [status_ (service_ (status_set s x p))] in
  counted (static_dwCheckPoint p) rs /\
  static_dwCheckPoint (status_set s x p) = advance (static_dwCheckPoint p) rs.
Proof.
  cbv zeta. unfold status_set, process_of, setServiceStatus2, setServiceStatus.
  cbn. destruct (running_or_stopped s); repeat split.
Qed.

Ltac track_transition :=
  read_reports;
  first [ apply two_reports_track | apply one_report_tracks
        | split; [exact I | reflexivity] ].

Lemma start_tracks (o : outcome) (dwArgc : DWORD) (pszArgv : list string) :
  tracks (start o dwArgc pszArgv).
Proof.
  intro p. destruct o as [|e]; [rewrite start_returns | rewrite start_throws];
    track_transition.
Qed.

Lemma stop_tracks (o : outcome) : tracks (stop o).
Proof.
  intro p. destruct o as [|e]; [rewrite stop_returns | rewrite stop_throws];
    track_transition.
Qed.

Lemma pause_tracks (o : outcome) : tracks (pause o).
Proof.
  intro p. destruct o as [|e]; [rewrite pause_returns | rewrite pause_throws];
    track_transition.
Qed.

Lemma continue_tracks (o : outcome) : tracks (_continue o).
Proof.
  intro p.
  destruct o as [|e]; [rewrite continue_returns | rewrite continue_throws];
    track_transition.
Qed.

Lemma shutdown_tracks (o : outcome) : tracks (shutdown o).
Proof.
  intro p.
  destruct o as [|e]; [rewrite shutdown_returns | rewrite shutdown_throws];
    track_transition.
Qed.

Create HintDb tracking.
#[local] Hint Resolve ret_tracks start_tracks stop_tracks pause_tracks
  continue_tracks shutdown_tracks : tracking.

Lemma deliver_tracks (r : request) : tracks (deliver r).
Proof.
  destruct r as [o dwArgc pszArgv | dwCtrl o]; cbn [deliver].
  - auto with tracking.
  - unfold ServiceCtrlHandler.
    repeat match goal with
      | |- context [if ?b then _ else _] => destruct b
      end;
      auto with tracking.
Qed.

Lemma dispatch_tracks (rs : list request) : tracks (dispatch rs).
Proof.
  induction rs as [|r rs IH]; cbn [dispatch].
  - apply ret_tracks.
  - apply bind_tracks; [apply deliver_tracks | intros _; exact IH].
Qed.

Lemma deliver_normal (r : request) (p : process) :
  result_of (deliver r p) = Normal tt.
Proof.
  destruct r; cbn [deliver];
    auto using start_normal, ServiceCtrlHandler_normal.
Qed.

(** Requests delivered after others see the process the others left. *)
Lemma dispatch_app (l1 l2 : list request) (p : process) :
  reports (trace_of (dispatch (l1 ++ l2) p)) =
    reports (trace_of (dispatch l1 p)) ++
    reports (trace_of (dispatch l2 (process_of (dispatch l1 p)))).
Proof.
  revert p. induction l1 as [|r l1 IH]; intro p; cbn [app dispatch].
  - reflexivity.
  - unfold bind. pose proof (deliver_normal r p) as Hn.
    destruct (deliver r p) as [[res p1] t1]. unfold result_of in Hn.
    cbn [fst] in Hn. subst res. specialize (IH p1).
    unfold trace_of, process_of in *.
    destruct (dispatch (l1 ++ l2) p1) as [[r2 p2] t2].
    destruct (dispatch l1 p1) as [[r3 p3] t3]. cbn [fst snd] in *.
    rewrite !reports_app, IH, app_assoc. reflexivity.
Qed.

Lemma dispatch_normal (rs : list request) (p : process) :
  result_of (dispatch rs p) = Normal tt.
Proof.
  revert p. induction rs as [|r rs IH]; intro p; cbn [dispatch];
    [reflexivity|].
  unfold bind. pose proof (deliver_normal r p) as Hn.
  destruct (deliver r p) as [[res p1] t1]. unfold result_of in Hn.
  cbn [fst] in Hn. subst res. specialize (IH p1). unfold result_of in *.
  destruct (dispatch rs p1) as [[r2 p2] t2]. exact IH.
Qed.

(** Reports that advance the counter are counted by [increments]. *)
Lemma increments_cons (s : SERVICE_STATUS) (rs : list SERVICE_STATUS) :
  increments (s :: rs) =
    (if running_or_stopped (dwCurrentState s) then 0 else 1) + increments rs.
Proof.
  unfold increments. cbn [filter].
  destruct (running_or_stopped (dwCurrentState s)); cbn [negb List.length];
    lia.
Qed.

Lemma increments_nonneg (rs : list SERVICE_STATUS) : 0 <= increments rs.
Proof. unfold increments. lia. Qed.

Lemma increments_pos (rs : list SERVICE_STATUS) (j : nat) (s : SERVICE_STATUS) :
  nth_error rs j = Some s ->
  running_or_stopped (dwCurrentState s) = false ->
  1 <= increments rs.
Proof.
  revert j. induction rs as [|r rs IH]; intros [|j] Hj Hs; cbn in Hj;
    try discriminate; rewrite increments_cons.
  - injection Hj as ->. rewrite Hs. pose proof (increments_nonneg rs). lia.
  - specialize (IH j Hj Hs).
    destruct (running_or_stopped (dwCurrentState r)); lia.
Qed.

(** Without wrap-around, a report that takes its checkpoint from the
    counter carries at least the value the counter had at the beginning. *)
Lemma counted_lower_bound (rs : list SERVICE_STATUS) :
  forall (c : DWORD) (j : nat) (s : SERVICE_STATUS),
    0 <= c ->
    c + increments rs <= 2 ^ 32 ->
    counted c rs ->
    nth_error rs j = Some s ->
    running_or_stopped (dwCurrentState s) = false ->
    c <= dwCheckPoint s.
Proof.
  induction rs as [|r rs IH]; intros c [|j] s Hc Hb Hcnt Hj Hs; cbn in Hj;
    try discriminate; cbn [counted] in Hcnt; rewrite increments_cons in Hb.
  - injection Hj as ->. rewrite Hs in Hcnt. lia.
  - pose proof (increments_pos rs j s Hj Hs) as Hpos.
    destruct (running_or_stopped (dwCurrentState r)); destruct Hcnt as [_ Hcnt].
    + apply (IH c j s); auto; lia.
    + rewrite wrap32_small in Hcnt by lia.
      assert (c + 1 <= dwCheckPoint s) by (apply (IH (c + 1) j s); auto; lia).
      lia.
Qed.

Lemma counted_increase (rs : list SERVICE_STATUS) :
  forall c : DWORD,
    0 <= c ->
    c + increments rs <= 2 ^ 32 ->
    counted c rs ->
    checkpoints_increase rs.
Proof.
  induction rs as [|r rs IH]; intros c Hc Hb Hcnt i j si sj Hij Hi Hj Hpi Hpj.
  - destruct i; discriminate.
  - destruct j as [|j]; [lia|]. cbn in Hj.
    apply is_pending_not_settled in Hpi as Hsi.
    apply is_pending_not_settled in Hpj as Hsj.
    pose proof (increments_pos rs j sj Hj Hsj) as Hpos.
    cbn [counted] in Hcnt. rewrite increments_cons in Hb.
    destruct i as [|i]; cbn in Hi.
    + injection Hi as ->. rewrite Hsi in Hcnt, Hb. destruct Hcnt as [Hcp Hcnt].
      rewrite wrap32_small in Hcnt by lia.
      assert (c + 1 <= dwCheckPoint sj)
        by (apply (counted_lower_bound rs (c + 1) j sj); auto; lia).
      lia.
    + assert (Hij' : (i < j)%nat) by lia.
      destruct (running_or_stopped (dwCurrentState r)); destruct Hcnt as [_ Hcnt].
      * apply (IH c Hc ltac:(lia) Hcnt i j si sj); assumption.
      * rewrite wrap32_small in Hcnt by lia.
        apply (IH (c + 1) ltac:(lia) ltac:(lia) Hcnt i j si sj); assumption.
Qed.

Lemma counted_baseline (rs : list SERVICE_STATUS) :
  forall c : DWORD, counted c rs -> baseline_when_settled rs.
Proof.
  induction rs as [|r rs IH]; intros c Hcnt s Hin Hs; [destruct Hin|].
  cbn [counted] in Hcnt. destruct Hin as [-> | Hin].
  - rewrite Hs in Hcnt. apply Hcnt.
  - destruct (running_or_stopped (dwCurrentState r)); destruct Hcnt as [_ Hcnt];
      eapply IH; eauto.
Qed.

(** C2, as stated, fails: in the scenario the two reports of the paused
    state carry the checkpoints 3 and 5, each one more than the checkpoint
    of the pending report before it, so neither 0 nor any other common
    baseline. *)
Lemma C2_paused_checkpoint_not_reset :
  map state_and_checkpoint (reports (trace_of (dispatch scenario fresh_process))) =
    [(SERVICE_START_PENDING, 1); (SERVICE_RUNNING, 0);
     (SERVICE_PAUSE_PENDING, 2); (SERVICE_PAUSED, 3);
     (SERVICE_CONTINUE_PENDING, 4); (SERVICE_PAUSED, 5)] /\
  ~ (exists baseline : DWORD,
       forall s : SERVICE_STATUS,
         In s (reports (trace_of (dispatch scenario fresh_process))) ->
         dwCurrentState s = SERVICE_PAUSED ->
         dwCheckPoint s = baseline).
Proof.
  split; [reflexivity|].
  intros [b Hb].
  assert (H3 : 3 = b).
  { apply (Hb (mkStatus 16 7 3 0 0 3 0)); [|reflexivity].
    vm_compute. auto 10. }
  assert (H5 : 5 = b).
  { apply (Hb (mkStatus 16 7 3 0 0 5 0)); [|reflexivity].
    vm_compute. auto 10. }
  lia.
Qed.

(** C2, amended: every report carries checkpoint 0 when its state is
    running or stopped, and otherwise, also when its state is paused, the
    value of the static counter, which the report then advances by one
    modulo 2^32; this holds for one call of [setServiceStatus] and along
    the reports of any sequence of requests.  In the scenario the reported
    states and checkpoints are start-pending 1, running 0, pause-pending
    2, paused 3, continue-pending 4, paused 5. *)
Theorem C2_checkpoint_rule (rs : list request) (p : process) :
  (forall dwState dwExit dwHint : DWORD,
     map state_and_checkpoint
       (reports (trace_of (setServiceStatus dwState dwExit dwHint p))) =
       [(dwState,
         if running_or_stopped dwState then 0 else static_dwCheckPoint p)] /\
     static_dwCheckPoint (process_of (setServiceStatus dwState dwExit dwHint p)) =
       if running_or_stopped dwState then static_dwCheckPoint p
       else wrap32 (static_dwCheckPoint p + 1)) /\
  (running_or_stopped SERVICE_RUNNING = true /\
   running_or_stopped SERVICE_STOPPED = true /\
   running_or_stopped SERVICE_PAUSED = false) /\
  counted (static_dwCheckPoint p) (reports (trace_of (dispatch rs p))) /\
  static_dwCheckPoint (process_of (dispatch rs p)) =
    advance (static_dwCheckPoint p) (reports (trace_of (dispatch rs p))) /\
  map state_and_checkpoint (reports (trace_of (dispatch scenario fresh_process))) =
    [(SERVICE_START_PENDING, 1); (SERVICE_RUNNING, 0);
     (SERVICE_PAUSE_PENDING, 2); (SERVICE_PAUSED, 3);
     (SERVICE_CONTINUE_PENDING, 4); (SERVICE_PAUSED, 5)].
Proof.
  split; [intros; split; reflexivity|].
  split; [repeat split|].
  pose proof (dispatch_tracks rs p) as [Hc Hs].
  repeat split; assumption.
Qed.

(** *** Failed stop requests before the start *)

Lemma process_of_bind {A B} (m : M A) (k : A -> M B) (p p1 : process) (a : A)
    (t1 : list event) :
  m p = (Normal a, p1, t1) ->
  process_of (bind m k p) = process_of (k a p1).
Proof.
  intro Hm. unfold bind, process_of. rewrite Hm.
  destruct (k a p1) as [[r p2] t2]. reflexivity.
Qed.

Lemma stop_failures_snoc (n : nat) :
  stop_failures (S n) =
    stop_failures n ++ [ReqControl SERVICE_CONTROL_STOP (Throws ExOther)].
Proof. unfold stop_failures. cbn [repeat]. apply repeat_cons. Qed.

(** One failed stop in the start-pending state advances the counter
    twice and leaves the state start-pending. *)
Lemma stop_failure_step (p : process) :
  current_state p = SERVICE_START_PENDING ->
  exists t : list event,
    deliver (ReqControl SERVICE_CONTROL_STOP (Throws ExOther)) p =
      (Normal tt, after_stop_failures 1 p, t).
Proof.
  intro Hst. cbn [deliver]. unfold ServiceCtrlHandler. cbn [Z.eqb Pos.eqb SERVICE_CONTROL_STOP].
  rewrite stop_throws. cbv zeta. eexists. f_equal. f_equal.
  unfold current_state in *. rewrite Hst.
  unfold status_set, setServiceStatus2, setServiceStatus, process_of,
    after_stop_failures.
  cbn -[wrap32 Z.add Z.mul Z.sub].
  rewrite wrap32_add_l.
  f_equal; [f_equal; f_equal|]; f_equal; lia.
Qed.

Lemma after_stop_failures_state (n : Z) (p : process) :
  current_state p = SERVICE_START_PENDING ->
  current_state (after_stop_failures n p) = SERVICE_START_PENDING.
Proof.
  intro Hst. unfold after_stop_failures.
  destruct (n =? 0); [exact Hst | reflexivity].
Qed.

Lemma after_stop_failures_succ (n : Z) (p : process) :
  0 <= n ->
  after_stop_failures n (after_stop_failures 1 p) =
    after_stop_failures (n + 1) p.
Proof.
  intro Hn. unfold after_stop_failures at 1 3.
  destruct (Z.eqb_spec n 0) as [-> | Hn0]; [reflexivity|].
  destruct (Z.eqb_spec (n + 1) 0) as [E | _]; [lia|].
  unfold after_stop_failures. cbn -[wrap32 Z.add Z.mul Z.sub].
  replace (wrap32 (static_dwCheckPoint p + 2 * 1) + 2 * n - 1)
    with (wrap32 (static_dwCheckPoint p + 2 * 1) + (2 * n - 1)) by lia.
  rewrite !wrap32_add_l.
  f_equal; [f_equal; f_equal|]; f_equal; lia.
Qed.

Lemma dispatch_stop_failures (n : nat) :
  forall p : process,
    current_state p = SERVICE_START_PENDING ->
    process_of (dispatch (stop_failures n) p) =
      after_stop_failures (Z.of_nat n) p.
Proof.
  induction n as [|n IH]; intros p Hst.
  - reflexivity.
  - destruct (stop_failure_step p Hst) as [t Ht].
    change (stop_failures (S n)) with
      (ReqControl SERVICE_CONTROL_STOP (Throws ExOther) :: stop_failures n).
    cbn [dispatch]. rewrite (process_of_bind _ _ _ _ _ _ Ht).
    rewrite IH by (apply after_stop_failures_state; exact Hst).
    rewrite after_stop_failures_succ by lia.
    f_equal. lia.
Qed.

(** C7, as stated, fails: delivered to the fresh process, 2^31 stop
    requests whose callback throws make the static counter pass its
    largest value; the last request reports stop-pending with checkpoint
    4294967295 and next start-pending with checkpoint 0, two pending
    reports in a row whose checkpoint falls. *)
Lemma C7_checkpoint_wraps_around :
  process_of (dispatch (stop_failures (Z.to_nat 2147483647)) fresh_process) =
    after_stop_failures 2147483647 fresh_process /\
  map state_and_checkpoint
    (reports (trace_of
       (dispatch [ReqControl SERVICE_CONTROL_STOP (Throws ExOther)]
          (after_stop_failures 2147483647 fresh_process)))) =
    [(SERVICE_STOP_PENDING, 4294967295); (SERVICE_START_PENDING, 0)] /\
  ~ checkpoints_increase
      (reports (trace_of (dispatch wrapping_requests fresh_process))).
Proof.
  assert (Hp : process_of
                 (dispatch (stop_failures (Z.to_nat 2147483647)) fresh_process) =
               after_stop_failures 2147483647 fresh_process).
  { rewrite dispatch_stop_failures by reflexivity.
    rewrite Z2Nat.id by lia. reflexivity. }
  split; [exact Hp|]. split; [vm_compute; reflexivity|].
  unfold wrapping_requests. rewrite stop_failures_snoc, dispatch_app, Hp.
  generalize (reports (trace_of
    (dispatch (stop_failures (Z.to_nat 2147483647)) fresh_process))).
  intros r1 Hinc.
  set (s1 := mkStatus 16 3 3 0 0 4294967295 0).
  set (s2 := mkStatus 16 2 3 0 0 0 0).
  assert (Hlast :
    reports (trace_of
      (dispatch [ReqControl SERVICE_CONTROL_STOP (Throws ExOther)]
         (after_stop_failures 2147483647 fresh_process))) = [s1; s2])
    by (vm_compute; reflexivity).
  rewrite Hlast in Hinc.
  specialize (Hinc (List.length r1) (S (List.length r1)) s1 s2).
  assert (H : dwCheckPoint s1 < dwCheckPoint s2).
  { apply Hinc.
    - lia.
    - rewrite nth_error_app2, Nat.sub_diag by lia. reflexivity.
    - rewrite nth_error_app2 by lia.
      replace (S (List.length r1) - List.length r1)%nat with 1%nat by lia.
      reflexivity.
    - reflexivity.
    - reflexivity. }
  vm_compute in H. discriminate.
Qed.

(** C7, amended: along the reports of any sequence of requests, a report
    of the running or of the stopped state carries checkpoint 0; and as
    long as the static counter does not wrap around, that is when its
    value before the sequence plus the number of reports that advance it
    is at most 2^32, the checkpoint grows strictly from each report of a
    pending state to every later one. *)
Theorem C7_checkpoints_increase_until_wrap (rs : list request) (p : process) :
  baseline_when_settled (reports (trace_of (dispatch rs p))) /\
  (0 <= static_dwCheckPoint p ->
   static_dwCheckPoint p + increments (reports (trace_of (dispatch rs p)))
     <= 2 ^ 32 ->
   checkpoints_increase (reports (trace_of (dispatch rs p)))).
Proof.
  pose proof (dispatch_tracks rs p) as [Hc _]. split.
  - exact (counted_baseline _ _ Hc).
  - intros H0 Hb. exact (counted_increase _ _ H0 Hb Hc).
Qed.

Lemma C7_checkpoints_increase_until_wrap_witness :
  0 <= static_dwCheckPoint fresh_process /\
  static_dwCheckPoint fresh_process +
    increments (reports (trace_of (dispatch scenario fresh_process))) <= 2 ^ 32 /\
  baseline_when_settled (reports (trace_of (dispatch scenario fresh_process))) /\
  checkpoints_increase (reports (trace_of (dispatch scenario fresh_process))).
Proof.
  assert (H0 : 0 <= static_dwCheckPoint fresh_process)
    by (vm_compute; discriminate).
  assert (Hb : static_dwCheckPoint fresh_process +
               increments (reports (trace_of (dispatch scenario fresh_process)))
               <= 2 ^ 32)
    by (vm_compute; discriminate).
  destruct (C7_checkpoints_increase_until_wrap scenario fresh_process)
    as [Hbase Hinc].
  repeat split; [exact H0 | exact Hb | exact Hbase | exact (Hinc H0 Hb)].
Defined.

(** * Further properties *)

(** ** Delivering requests one after the other *)

Lemma dispatch_cons (r : request) (rs : list request) (p : process) :
  dispatch (r :: rs) p =
    (result_of (dispatch rs (process_of (deliver r p))),
     process_of (dispatch rs (process_of (deliver r p))),
     trace_of (deliver r p) ++ trace_of (dispatch rs (process_of (deliver r p)))).
Proof.
  cbn [dispatch]. unfold bind. pose proof (deliver_normal r p) as Hn.
  destruct (deliver r p) as [[res p1] t1]. unfold result_of in Hn.
  cbn [fst] in Hn. subst res. unfold result_of, process_of, trace_of.
  cbn [fst snd]. destruct (dispatch rs p1) as [[r2 p2] t2]. reflexivity.
Qed.

Lemma dispatch_cons_process (r : request) (rs : list request) (p : process) :
  process_of (dispatch (r :: rs) p) =
    process_of (dispatch rs (process_of (deliver r p))).
Proof. rewrite dispatch_cons. reflexivity. Qed.

Lemma dispatch_cons_trace (r : request) (rs : list request) (p : process) :
  trace_of (dispatch (r :: rs) p) =
    trace_of (deliver r p) ++ trace_of (dispatch rs (process_of (deliver r p))).
Proof. rewrite dispatch_cons. reflexivity. Qed.

(** Case analysis on a delivered request: the start with its two
    outcomes, the four control codes that reach a transition with their
    two outcomes, and the codes that reach none. *)
Ltac deliver_cases r :=
  let o := fresh "o" in
  let dwCtrl := fresh "dwCtrl" in
  destruct r as [o ? ? | dwCtrl o]; cbn [deliver callback_of callback_fails];
  [ destruct o as [|?]; [rewrite start_returns | rewrite start_throws]
  | unfold ServiceCtrlHandler;
    destruct (dwCtrl =? SERVICE_CONTROL_STOP);
    [ destruct o as [|?]; [rewrite stop_returns | rewrite stop_throws]
    | destruct (dwCtrl =? SERVICE_CONTROL_PAUSE);
      [ destruct o as [|?]; [rewrite pause_returns | rewrite pause_throws]
      | destruct (dwCtrl =? SERVICE_CONTROL_CONTINUE);
        [ destruct o as [|?];
          [rewrite continue_returns | rewrite continue_throws]
        | destruct (dwCtrl =? SERVICE_CONTROL_SHUTDOWN);
          [ destruct o as [|?];
            [rewrite shutdown_returns | rewrite shutdown_throws]
          | destruct (dwCtrl =? SERVICE_CONTROL_INTERROGATE) ] ] ] ] ];
  cbv zeta; unfold process_of, trace_of, result_of; cbn [fst snd].

(** ** What no request changes *)

Lemma status_set_fixed (s x : DWORD) (p : process) :
  fixed_members (status_set s x p) = fixed_members p.
Proof. reflexivity. Qed.

Lemma deliver_fixed (r : request) (p : process) :
  fixed_members (process_of (deliver r p)) = fixed_members p.
Proof. deliver_cases r; reflexivity. Qed.

Lemma call_conforms_fixed (p q : process) (e : event) :
  fixed_members p = fixed_members q -> call_conforms q e -> call_conforms p e.
Proof.
  unfold fixed_members. intros Hf Hc. injection Hf as Hn Hh Ht Ha Hs Hes.
  destruct e; cbn [call_conforms] in *; try exact I.
  rewrite Hh, Ht, Ha, Hs. exact Hc.
Qed.

Lemma log_trace_conforms (pszFunction generic : string) (e : exn)
    (p q : process) :
  Forall (call_conforms q) (log_trace pszFunction generic e p).
Proof.
  rewrite log_trace_shape. destruct (truthy (os_event_source p));
    repeat constructor.
Qed.

Lemma status_call_conforms (s x : DWORD) (p : process) :
  call_conforms p (status_call s x p).
Proof. repeat split. Qed.

Lemma status_call_conforms_next (s x s' x' : DWORD) (p : process) :
  call_conforms p (status_call s' x' (status_set s x p)).
Proof. repeat split. Qed.

Lemma deliver_conforms (r : request) (p : process) :
  Forall (call_conforms p) (trace_of (deliver r p)).
Proof.
  deliver_cases r;
    repeat first
      [ apply Forall_nil
      | apply Forall_cons
      | apply Forall_app; split
      | apply log_trace_conforms
      | apply status_call_conforms
      | apply status_call_conforms_next
      | exact I ].
Qed.

(** X1: no sequence of requests changes the service name, the status
    handle, the service type, the accepted controls, the service-specific
    exit code or the event source. *)
Theorem X1_dispatch_keeps_fixed_members (rs : list request) (p : process) :
  fixed_members (process_of (dispatch rs p)) = fixed_members p.
Proof.
  revert p. induction rs as [|r rs IH]; intro p; [reflexivity|].
  rewrite dispatch_cons_process, IH. apply deliver_fixed.
Qed.

(** X2: every status report of every sequence of requests is sent to the
    status handle the service holds and repeats its service type, accepted
    controls and service-specific exit code, with wait hint 0. *)
Theorem X2_reports_conform (rs : list request) (p : process) :
  Forall (call_conforms p) (trace_of (dispatch rs p)).
Proof.
  revert p. induction rs as [|r rs IH]; intro p; [constructor|].
  rewrite dispatch_cons_trace. apply Forall_app. split.
  - apply deliver_conforms.
  - eapply Forall_impl; [|apply IH].
    intro e. apply call_conforms_fixed. symmetry. apply deliver_fixed.
Qed.

(** ** Exit codes and states *)

Lemma reports_log_trace (pszFunction generic : string) (e : exn) (p : process) :
  reports (log_trace pszFunction generic e p) = [].
Proof. apply (log_failure_trace pszFunction generic e p). Qed.

Lemma callbacks_log_trace (pszFunction generic : string) (e : exn)
    (p : process) :
  callbacks (log_trace pszFunction generic e p) = [].
Proof. apply (log_failure_trace pszFunction generic e p). Qed.

(** After the case analysis, the reports of a step are read off. *)
Ltac step_reports :=
  unfold status_call; cbn [reports callbacks app];
  rewrite ?reports_app, ?callbacks_app, ?reports_log_trace,
    ?callbacks_log_trace;
  cbn [reports callbacks app].



Lemma deliver_not_pending (r : request) (p : process) :
  is_pending (current_state p) = false ->
  is_pending (current_state (process_of (deliver r p))) = false.
Proof. intro Hp. deliver_cases r; first [reflexivity | exact Hp]. Qed.

(** X4: a service whose state is not a pending one is not left in a
    pending state by any sequence of requests, whatever the callbacks do. *)
Theorem X4_never_left_pending (rs : list request) (p : process) :
  is_pending (current_state p) = false ->
  is_pending (current_state (process_of (dispatch rs p))) = false.
Proof.
  revert p. induction rs as [|r rs IH]; intros p Hp; [exact Hp|].
  rewrite dispatch_cons_process. apply IH, deliver_not_pending, Hp.
Qed.

Lemma X4_never_left_pending_witness :
  is_pending (current_state running_process) = false /\
  is_pending
    (current_state
       (process_of
          (dispatch
             [ReqControl SERVICE_CONTROL_PAUSE (Throws ExOther);
              ReqControl SERVICE_CONTROL_STOP (Throws (ExDWORD 5))]
             running_process))) = false.
Proof.
  assert (H : is_pending (current_state running_process) = false)
    by reflexivity.
  split; [exact H|].
  exact (X4_never_left_pending
           [ReqControl SERVICE_CONTROL_PAUSE (Throws ExOther);
            ReqControl SERVICE_CONTROL_STOP (Throws (ExDWORD 5))]
           running_process H).
Defined.

Lemma start_settles (o : outcome) (dwArgc : DWORD) (pszArgv : list string)
    (p : process) :
  is_pending (current_state (process_of (start o dwArgc pszArgv p))) = false.
Proof.
  destruct o as [|e]; [rewrite start_returns | rewrite start_throws];
    reflexivity.
Qed.

(** X5: once the start has been delivered the service is running or
    stopped, and whatever requests follow, with whatever outcomes, it is
    not in a pending state when they have returned; the state the
    constructor leaves (start-pending) plays no part. *)
Theorem X5_started_service_settles (o : outcome) (dwArgc : DWORD)
    (pszArgv : list string) (rs : list request) (p : process) :
  running_or_stopped
    (current_state (process_of (start o dwArgc pszArgv p))) = true /\
  is_pending
    (current_state
       (process_of (dispatch (ReqStart o dwArgc pszArgv :: rs) p))) = false.
Proof.
  split.
  - destruct o as [|e]; [rewrite start_returns | rewrite start_throws];
      reflexivity.
  - rewrite dispatch_cons_process. cbn [deliver].
    revert rs. generalize (start_settles o dwArgc pszArgv p).
    generalize (process_of (start o dwArgc pszArgv p)).
    intros q Hq rs. revert q Hq.
    induction rs as [|r rs IH]; intros q Hq; [exact Hq|].
    rewrite dispatch_cons_process. apply IH, deliver_not_pending, Hq.
Qed.

(** ** The status the service holds and the status the SCM was told *)

Lemma last_cons {A} (l : list A) (a d : A) : last (a :: l) d = last l a.
Proof.
  revert a d. induction l as [|b l IH]; intros a d; [reflexivity|].
  change (last (a :: b :: l) d) with (last (b :: l) d).
  rewrite (IH b d), (IH b a). reflexivity.
Qed.

Lemma last_app_default {A} (l1 l2 : list A) (d : A) :
  last (l1 ++ l2) d = last l2 (last l1 d).
Proof.
  revert d. induction l1 as [|a l1 IH]; intro d; [reflexivity|].
  cbn [app]. rewrite !last_cons. apply IH.
Qed.

Lemma deliver_in_sync (r : request) (p : process) :
  status_ (service_ (process_of (deliver r p))) =
    last (reports (trace_of (deliver r p))) (status_ (service_ p)).
Proof.
  deliver_cases r; step_reports; reflexivity.
Qed.

(** X6: after any sequence of requests the status the service holds is
    the last status it reported, or the one it held before when nothing
    was reported: the SCM's record and the service's own never differ. *)
Theorem X6_status_is_last_report (rs : list request) (p : process) :
  status_ (service_ (process_of (dispatch rs p))) =
    last (reports (trace_of (dispatch rs p))) (status_ (service_ p)).
Proof.
  revert p. induction rs as [|r rs IH]; intro p; [reflexivity|].
  rewrite dispatch_cons_process, dispatch_cons_trace, reports_app,
    last_app_default, IH, deliver_in_sync.
  reflexivity.
Qed.

(** ** Callbacks *)

Lemma deliver_callbacks (r : request) (p : process) :
  callbacks (trace_of (deliver r p)) = callback_of r.
Proof. deliver_cases r; step_reports; reflexivity. Qed.

(** X7: the callbacks invoked along a sequence of requests are exactly
    the ones the requests reach, in the order of the requests, each once:
    a callback is neither skipped nor invoked again, whether it or an
    earlier one returned or threw. *)
Theorem X7_callbacks_follow_requests (rs : list request) (p : process) :
  callbacks (trace_of (dispatch rs p)) = flat_map callback_of rs.
Proof.
  revert p. induction rs as [|r rs IH]; intro p; [reflexivity|].
  rewrite dispatch_cons_trace, callbacks_app, deliver_callbacks, IH.
  reflexivity.
Qed.

(** ** The event log *)







Lemma log_trace_entries (pszFunction generic : string) (e : exn)
    (p : process) :
  Forall (error_entry_of p) (log_trace pszFunction generic e p).
Proof.
  rewrite log_trace_shape. destruct (truthy (os_event_source p));
    repeat constructor. eexists. reflexivity.
Qed.

Lemma deliver_entries (r : request) (p : process) :
  Forall (error_entry_of p) (trace_of (deliver r p)).
Proof.
  deliver_cases r;
    repeat first
      [ apply Forall_nil
      | apply Forall_cons
      | apply Forall_app; split
      | apply log_trace_entries
      | exact I ].
Qed.

Lemma error_entry_of_fixed (p q : process) (e : event) :
  fixed_members p = fixed_members q -> error_entry_of q e -> error_entry_of p e.
Proof.
  unfold fixed_members. intros Hf Hc. injection Hf as Hn Hh Ht Ha Hs Hes.
  destruct e; cbn [error_entry_of] in *; try exact I.
  rewrite Hn, Hes. exact Hc.
Qed.

(** X9: every entry written to the event log along any sequence of
    requests goes through the event source the environment gave, has the
    error type, and carries two strings, the service name first. *)
Theorem X9_log_entries_are_errors (rs : list request) (p : process) :
  Forall (error_entry_of p) (trace_of (dispatch rs p)).
Proof.
  revert p. induction rs as [|r rs IH]; intro p; [constructor|].
  rewrite dispatch_cons_trace. apply Forall_app. split.
  - apply deliver_entries.
  - eapply Forall_impl; [|apply IH].
    intro e. apply error_entry_of_fixed. symmetry. apply deliver_fixed.
Qed.

Lemma log_trace_any_source (pszFunction generic : string) (e : exn)
    (h : HANDLE) (p : process) :
  reports (log_trace pszFunction generic e (with_event_source h p)) = [] /\
  callbacks (log_trace pszFunction generic e (with_event_source h p)) = [].
Proof.
  split; [apply reports_log_trace | apply callbacks_log_trace].
Qed.

Lemma deliver_any_source (r : request) (h : HANDLE) (p : process) :
  process_of (deliver r (with_event_source h p)) =
    with_event_source h (process_of (deliver r p)) /\
  reports (trace_of (deliver r (with_event_source h p))) =
    reports (trace_of (deliver r p)).
Proof.
  deliver_cases r;
    rewrite ?start_returns, ?start_throws, ?stop_returns, ?stop_throws,
      ?pause_returns, ?pause_throws, ?continue_returns, ?continue_throws,
      ?shutdown_returns, ?shutdown_throws;
    cbv zeta; cbn [fst snd]; step_reports; split; reflexivity.
Qed.

(** X10: whether the event log is available makes no difference to the
    state machine: with any answer of [RegisterEventSource] a sequence of
    requests issues the same status reports and leaves the same service
    and the same static counter. *)
Theorem X10_reports_independent_of_event_log (rs : list request) (h : HANDLE)
    (p : process) :
  process_of (dispatch rs (with_event_source h p)) =
    with_event_source h (process_of (dispatch rs p)) /\
  reports (trace_of (dispatch rs (with_event_source h p))) =
    reports (trace_of (dispatch rs p)).
Proof.
  revert p. induction rs as [|r rs IH]; intro p; [split; reflexivity|].
  rewrite !dispatch_cons_process, !dispatch_cons_trace, !reports_app.
  destruct (deliver_any_source r h p) as [Hp Hr]. rewrite Hp, Hr.
  destruct (IH (process_of (deliver r p))) as [Hp' Hr']. rewrite Hp', Hr'.
  split; reflexivity.
Qed.

(** ** The static counter in closed form *)

Lemma wrap32_range (z : Z) : 0 <= wrap32 z < 2 ^ 32.
Proof. unfold wrap32. apply Z.mod_pos_bound. reflexivity. Qed.

Lemma advance_closed (rs : list SERVICE_STATUS) :
  forall c : DWORD,
    0 <= c < 2 ^ 32 ->
    advance c rs = wrap32 (c + increments rs).
Proof.
  induction rs as [|s rs IH]; intros c Hc.
  - cbn [advance]. unfold increments. cbn [filter List.length Z.of_nat].
    rewrite Z.add_0_r. symmetry. apply wrap32_small. exact Hc.
  - cbn [advance]. rewrite increments_cons.
    destruct (running_or_stopped (dwCurrentState s)).
    + rewrite IH by exact Hc. reflexivity.
    + rewrite IH by apply wrap32_range. rewrite wrap32_add_l.
      f_equal. lia.
Qed.

Lemma deliver_report_count (r : request) (p : process) :
  (List.length (reports (trace_of (deliver r p))) <= 2)%nat.
Proof.
  deliver_cases r; step_reports; unfold ret;
    cbn [snd reports List.length]; lia.
Qed.

(** X11: after any sequence of requests the static checkpoint counter is
    its value before, plus the number of reports issued for states other
    than running and stopped, modulo 2^32; and [n] requests issue at most
    [2 * n] reports. *)
Theorem X11_counter_counts_reports (rs : list request) (p : process) :
  0 <= static_dwCheckPoint p < 2 ^ 32 ->
  static_dwCheckPoint (process_of (dispatch rs p)) =
    wrap32 (static_dwCheckPoint p +
            increments (reports (trace_of (dispatch rs p)))) /\
  0 <= increments (reports (trace_of (dispatch rs p))) <=
    Z.of_nat (List.length (reports (trace_of (dispatch rs p)))) /\
  (List.length (reports (trace_of (dispatch rs p))) <= 2 * List.length rs)%nat.
Proof.
  intro Hc. split; [|split].
  - destruct (dispatch_tracks rs p) as [_ Hs]. rewrite Hs.
    apply advance_closed. exact Hc.
  - split; [apply increments_nonneg|]. unfold increments.
    apply inj_le, filter_length_le.
  - clear Hc. revert p. induction rs as [|r rs IH]; intro p; [cbn; lia|].
    rewrite dispatch_cons_trace, reports_app, length_app.
    pose proof (deliver_report_count r p).
    specialize (IH (process_of (deliver r p))). cbn [List.length]. lia.
Qed.

Lemma X11_counter_counts_reports_witness :
  0 <= static_dwCheckPoint fresh_process < 2 ^ 32 /\
  static_dwCheckPoint (process_of (dispatch scenario fresh_process)) =
    wrap32 (static_dwCheckPoint fresh_process +
            increments (reports (trace_of (dispatch scenario fresh_process)))) /\
  0 <= increments (reports (trace_of (dispatch scenario fresh_process))) <=
    Z.of_nat
      (List.length (reports (trace_of (dispatch scenario fresh_process)))) /\
  (List.length (reports (trace_of (dispatch scenario fresh_process))) <=
     2 * List.length scenario)%nat.
Proof.
  assert (H : 0 <= static_dwCheckPoint fresh_process < 2 ^ 32)
    by (split; vm_compute; discriminate || reflexivity).
  split; [exact H|].
  exact (X11_counter_counts_reports scenario fresh_process H).
Defined.

(** ** The transitions when the callback returns *)

(** X12: when the callback returns, [start], [stop], [pause] and
    [_continue] each issue exactly two reports, both with exit code
    [NO_ERROR]: the pending state with the value of the static counter as
    checkpoint, then running, stopped, paused and running respectively,
    with checkpoint 0 except for paused, which takes the next value of
    the counter; the service is left in that last state. *)
Theorem X12_successful_transitions (dwArgc : DWORD) (pszArgv : list string)
    (p : process) :
  let c := static_dwCheckPoint p in
  (map shown (reports (trace_of (start Returns dwArgc pszArgv p))) =
     [(SERVICE_START_PENDING, NO_ERROR, c); (SERVICE_RUNNING, NO_ERROR, 0)] /\
   current_state (process_of (start Returns dwArgc pszArgv p)) =
     SERVICE_RUNNING) /\
  (map shown (reports (trace_of (stop Returns p))) =
     [(SERVICE_STOP_PENDING, NO_ERROR, c); (SERVICE_STOPPED, NO_ERROR, 0)] /\
   current_state (process_of (stop Returns p)) = SERVICE_STOPPED) /\
  (map shown (reports (trace_of (pause Returns p))) =
     [(SERVICE_PAUSE_PENDING, NO_ERROR, c);
      (SERVICE_PAUSED, NO_ERROR, wrap32 (c + 1))] /\
   current_state (process_of (pause Returns p)) = SERVICE_PAUSED) /\
  (map shown (reports (trace_of (_continue Returns p))) =
     [(SERVICE_CONTINUE_PENDING, NO_ERROR, c); (SERVICE_RUNNING, NO_ERROR, 0)] /\
   current_state (process_of (_continue Returns p)) = SERVICE_RUNNING).
Proof. repeat split. Qed.

(** ** Round trips of the status *)

(** X13: on a running service (exit code [NO_ERROR], checkpoint and wait
    hint 0) a pause and a continue that both succeed bring back exactly
    the status it had; only the static counter has moved, by three. *)
Theorem X13_pause_continue_round_trip (p : process) :
  dwCurrentState (status_ (service_ p)) = SERVICE_RUNNING ->
  dwWin32ExitCode (status_ (service_ p)) = NO_ERROR ->
  dwCheckPoint (status_ (service_ p)) = 0 ->
  dwWaitHint (status_ (service_ p)) = 0 ->
  let q :=
    process_of
      (dispatch [ReqControl SERVICE_CONTROL_PAUSE Returns;
                 ReqControl SERVICE_CONTROL_CONTINUE Returns] p) in
  service_ q = service_ p /\
  static_dwCheckPoint q = wrap32 (static_dwCheckPoint p + 3).
Proof.
  intros Hs Hx Hc Hw. cbv zeta.
  destruct p as [[nm h [ty st acc ex sp cp wh]] c es].
  cbn [service_ status_ dwCurrentState dwWin32ExitCode dwCheckPoint dwWaitHint]
    in Hs, Hx, Hc, Hw. subst st ex cp wh.
  split; [reflexivity|].
  change (wrap32 (wrap32 (wrap32 (c + 1) + 1) + 1) = wrap32 (c + 3)).
  rewrite wrap32_add_l, <- Z.add_assoc, wrap32_add_l. f_equal. lia.
Qed.

Lemma X13_pause_continue_round_trip_witness :
  (dwCurrentState (status_ (service_ running_process)) = SERVICE_RUNNING /\
   dwWin32ExitCode (status_ (service_ running_process)) = NO_ERROR /\
   dwCheckPoint (status_ (service_ running_process)) = 0 /\
   dwWaitHint (status_ (service_ running_process)) = 0) /\
  service_
    (process_of
       (dispatch [ReqControl SERVICE_CONTROL_PAUSE Returns;
                  ReqControl SERVICE_CONTROL_CONTINUE Returns]
          running_process)) = service_ running_process /\
  static_dwCheckPoint
    (process_of
       (dispatch [ReqControl SERVICE_CONTROL_PAUSE Returns;
                  ReqControl SERVICE_CONTROL_CONTINUE Returns]
          running_process)) =
    wrap32 (static_dwCheckPoint running_process + 3).
Proof.
  split; [repeat split|].
  exact (X13_pause_continue_round_trip running_process
           eq_refl eq_refl eq_refl eq_refl).
Defined.

(** X14: on a running service (exit code [NO_ERROR], checkpoint and wait
    hint 0) a stop or a pause whose callback throws leaves the service
    exactly as it was, status included; the static counter has moved by
    one, for the pending report. *)
Theorem X14_failed_request_restores_running (e : exn) (p : process) :
  dwCurrentState (status_ (service_ p)) = SERVICE_RUNNING ->
  dwWin32ExitCode (status_ (service_ p)) = NO_ERROR ->
  dwCheckPoint (status_ (service_ p)) = 0 ->
  dwWaitHint (status_ (service_ p)) = 0 ->
  (service_ (process_of (stop (Throws e) p)) = service_ p /\
   static_dwCheckPoint (process_of (stop (Throws e) p)) =
     wrap32 (static_dwCheckPoint p + 1)) /\
  (service_ (process_of (pause (Throws e) p)) = service_ p /\
   static_dwCheckPoint (process_of (pause (Throws e) p)) =
     wrap32 (static_dwCheckPoint p + 1)).
Proof.
  intros Hs Hx Hc Hw. rewrite stop_throws, pause_throws. cbv zeta.
  destruct p as [[nm h [ty st acc ex sp cp wh]] c es].
  cbn [service_ status_ dwCurrentState dwWin32ExitCode dwCheckPoint dwWaitHint]
    in Hs, Hx, Hc, Hw. subst st ex cp wh.
  repeat split.
Qed.

Lemma X14_failed_request_restores_running_witness :
  (dwCurrentState (status_ (service_ running_process)) = SERVICE_RUNNING /\
   dwWin32ExitCode (status_ (service_ running_process)) = NO_ERROR /\
   dwCheckPoint (status_ (service_ running_process)) = 0 /\
   dwWaitHint (status_ (service_ running_process)) = 0) /\
  (service_ (process_of (stop (Throws (ExDWORD 5)) running_process)) =
     service_ running_process /\
   static_dwCheckPoint (process_of (stop (Throws (ExDWORD 5)) running_process)) =
     wrap32 (static_dwCheckPoint running_process + 1)) /\
  (service_ (process_of (pause (Throws (ExDWORD 5)) running_process)) =
     service_ running_process /\
   static_dwCheckPoint (process_of (pause (Throws (ExDWORD 5)) running_process)) =
     wrap32 (static_dwCheckPoint running_process + 1)).
Proof.
  split; [repeat split|].
  exact (X14_failed_request_restores_running (ExDWORD 5) running_process
           eq_refl eq_refl eq_refl eq_refl).
Defined.

(** ** The entry point [ServiceMain] *)

(** X15: when the registration of the control handler fails (null
    handle), [ServiceMain] throws the last error as a [DWORD]; nothing
    catches it there, [onStart] is not invoked, no status is reported, and
    the only change is the null handle it stored. *)
Theorem X15_ServiceMain_registration_failure (dwLastError : DWORD)
    (o : outcome) (dwArgc : DWORD) (pszArgv : list string) (p : process) :
  ServiceMain NULL dwLastError o dwArgc pszArgv p =
    (Thrown (ExDWORD dwLastError), with_status_handle NULL p,
     [EvRegisterServiceCtrlHandler (name_ (service_ p))]) /\
  reports (trace_of (ServiceMain NULL dwLastError o dwArgc pszArgv p)) = [] /\
  callbacks (trace_of (ServiceMain NULL dwLastError o dwArgc pszArgv p)) = [].
Proof. repeat split. Qed.

Lemma ServiceMain_run (hStatus : HANDLE) (dwLastError : DWORD) (o : outcome)
    (dwArgc : DWORD) (pszArgv : list string) (p : process) :
  hStatus <> NULL ->
  ServiceMain hStatus dwLastError o dwArgc pszArgv p =
    (Normal tt,
     process_of (start o dwArgc pszArgv (with_status_handle hStatus p)),
     EvRegisterServiceCtrlHandler (name_ (service_ p)) ::
     trace_of (start o dwArgc pszArgv (with_status_handle hStatus p))).
Proof.
  intro Hh. apply Z.eqb_neq in Hh.
  unfold ServiceMain, bind, get, emit. rewrite Hh.
  fold (with_status_handle hStatus p).
  pose proof (start_normal o dwArgc pszArgv (with_status_handle hStatus p))
    as Hn.
  unfold result_of, process_of, trace_of in *.
  destruct (start o dwArgc pszArgv (with_status_handle hStatus p))
    as [[r q] t].
  cbn [fst snd] in *. subst r. reflexivity.
Qed.

(** X16: when the registration gives a handle, [ServiceMain] returns
    normally whatever [onStart] does, after registering and then running
    [start] on the service that holds the handle; every status report it
    makes is sent to that handle, and the service keeps it. *)
Theorem X16_ServiceMain_reports_to_handle (hStatus : HANDLE)
    (dwLastError : DWORD) (o : outcome) (dwArgc : DWORD)
    (pszArgv : list string) (p : process) :
  hStatus <> NULL ->
  let x := ServiceMain hStatus dwLastError o dwArgc pszArgv p in
  result_of x = Normal tt /\
  process_of x =
    process_of (start o dwArgc pszArgv (with_status_handle hStatus p)) /\
  trace_of x =
    EvRegisterServiceCtrlHandler (name_ (service_ p)) ::
    trace_of (start o dwArgc pszArgv (with_status_handle hStatus p)) /\
  Forall (fun e => match e with
                   | EvSetServiceStatus h _ => h = hStatus
                   | _ => True
                   end) (trace_of x) /\
  statusHandle_ (service_ (process_of x)) = hStatus.
Proof.
  intro Hh. cbv zeta. rewrite (ServiceMain_run _ _ _ _ _ _ Hh).
  unfold result_of, process_of at 1 3 5, trace_of at 1 3. cbn [fst snd].
  repeat split.
  - constructor; [exact I|].
    pose proof (deliver_conforms (ReqStart o dwArgc pszArgv)
                  (with_status_handle hStatus p)) as Hc.
    cbn [deliver] in Hc. eapply Forall_impl; [|exact Hc].
    intros [h s| | | | |] He; try exact I. apply He.
  - pose proof (deliver_fixed (ReqStart o dwArgc pszArgv)
                  (with_status_handle hStatus p)) as Hf.
    cbn [deliver] in Hf. unfold fixed_members in Hf.
    injection Hf as _ Hf _ _ _ _. exact Hf.
Qed.

Lemma X16_ServiceMain_reports_to_handle_witness :
  42 <> NULL /\
  let x := ServiceMain 42 0 (Throws (ExDWORD 5)) 0 [] fresh_process in
  result_of x = Normal tt /\
  process_of x =
    process_of (start (Throws (ExDWORD 5)) 0 [] (with_status_handle 42 fresh_process)) /\
  trace_of x =
    EvRegisterServiceCtrlHandler (name_ (service_ fresh_process)) ::
    trace_of (start (Throws (ExDWORD 5)) 0 [] (with_status_handle 42 fresh_process)) /\
  Forall (fun e => match e with
                   | EvSetServiceStatus h _ => h = 42
                   | _ => True
                   end) (trace_of x) /\
  statusHandle_ (service_ (process_of x)) = 42.
Proof.
  assert (H : 42 <> NULL) by discriminate.
  split; [exact H|].
  exact (X16_ServiceMain_reports_to_handle 42 0 (Throws (ExDWORD 5)) 0 []
           fresh_process H).
Defined.

(** ** The text of a logged error *)

Lemma unhex_hex_digit (d : Z) :
  0 <= d < 16 -> unhex_digit (hex_digit d) = Some d.
Proof.
  intro Hd.
  assert (H : d = 0 \/ d = 1 \/ d = 2 \/ d = 3 \/ d = 4 \/ d = 5 \/ d = 6 \/
              d = 7 \/ d = 8 \/ d = 9 \/ d = 10 \/ d = 11 \/ d = 12 \/
              d = 13 \/ d = 14 \/ d = 15) by lia.
  repeat (destruct H as [-> | H]; [reflexivity|]). subst d. reflexivity.
Qed.

Lemma unhex_hex_digits (n : nat) :
  forall (z acc : Z) (s : string),
    unhex_from acc (hex_digits n z s) =
      unhex_from (acc * 16 ^ Z.of_nat n + z mod 16 ^ Z.of_nat n) s.
Proof.
  induction n as [|n IH]; intros z acc s.
  - cbn [hex_digits Z.of_nat]. rewrite Z.pow_0_r, Z.mod_1_r.
    f_equal. lia.
  - cbn [hex_digits]. rewrite IH. cbn [unhex_from].
    rewrite unhex_hex_digit by (apply Z.mod_pos_bound; lia).
    f_equal. rewrite Nat2Z.inj_succ, Z.pow_succ_r by lia.
    rewrite (Z.rem_mul_r z 16 (16 ^ Z.of_nat n)) by lia.
    lia.
Qed.

Lemma length_hex_digits (n : nat) :
  forall (z : Z) (s : string),
    String.length (hex_digits n z s) = (n + String.length s)%nat.
Proof.
  induction n as [|n IH]; intros z s; [reflexivity|].
  cbn [hex_digits]. rewrite IH. cbn [String.length]. lia.
Qed.

Lemma length_hex8 (z : Z) : String.length (hex8 z) = 8%nat.
Proof. unfold hex8. rewrite length_hex_digits. reflexivity. Qed.

(** X17: [hex8] prints exactly eight characters, all hexadecimal digits,
    and read back they give the number modulo 2^32: for a [DWORD] the
    printed code is the code, nothing lost. *)
Theorem X17_hex8_round_trip (z : Z) :
  String.length (hex8 z) = 8%nat /\
  unhex (hex8 z) = Some (wrap32 z).
Proof.
  split; [apply length_hex8|].
  unfold hex8, unhex. rewrite unhex_hex_digits. cbn [unhex_from]. reflexivity.
Qed.

Lemma length_append (s1 s2 : string) :
  String.length (s1 ++ s2) = (String.length s1 + String.length s2)%nat.
Proof.
  induction s1 as [|c s1 IH]; [reflexivity|].
  cbn [append String.length]. rewrite IH. reflexivity.
Qed.

Lemma length_substring_0 (m : nat) :
  forall s : string,
    String.length (substring 0 m s) = Nat.min m (String.length s).
Proof.
  induction m as [|m IH]; intros [|c s]; try reflexivity.
  cbn [substring String.length]. rewrite IH. reflexivity.
Qed.

Lemma substring_0_all (m : nat) :
  forall s : string, (String.length s <= m)%nat -> substring 0 m s = s.
Proof.
  induction m as [|m IH]; intros [|c s] Hs; try reflexivity.
  - cbn [String.length] in Hs. lia.
  - cbn [substring]. rewrite IH; [reflexivity|].
    cbn [String.length] in Hs. lia.
Qed.

Lemma substring_skip (s1 s2 : string) (m : nat) :
  substring (String.length s1) m (s1 ++ s2) = substring 0 m s2.
Proof.
  induction s1 as [|c s1 IH]; [reflexivity|].
  cbn [String.length append substring]. exact IH.
Qed.

Lemma length_full_message (pszFunction : string) (dwError : DWORD) :
  String.length (pszFunction ++ (" failed w/err 0x" ++ hex8 dwError)) =
    (String.length pszFunction + 24)%nat.
Proof.
  rewrite !length_append, length_hex8. cbn [String.length]. lia.
Qed.

(** X18: the message [writeErrorLogEntry] hands to the event log is the
    function name, the words [ failed w/err 0x] and the eight digits of
    the code, cut to the 259 characters the buffer holds: its length is
    the smaller of 259 and the length of the name plus 24. *)
Theorem X18_error_message_is_bounded (pszFunction : string)
    (dwError : DWORD) :
  writeErrorLogEntry pszFunction dwError =
    writeEventLogEntry
      (substring 0 259
         (pszFunction ++ (" failed w/err 0x" ++ hex8 dwError)))
      EVENTLOG_ERROR_TYPE /\
  String.length
    (substring 0 259 (pszFunction ++ (" failed w/err 0x" ++ hex8 dwError))) =
    Nat.min 259 (String.length pszFunction + 24) /\
  (String.length
     (substring 0 259 (pszFunction ++ (" failed w/err 0x" ++ hex8 dwError)))
   <= 259)%nat.
Proof.
  split; [reflexivity|].
  rewrite length_substring_0, length_full_message. split; [reflexivity|].
  apply Nat.le_min_l.
Qed.

(** X19: when the function name has at most 235 characters, as the five
    names the class uses have, nothing is cut: the logged message is the
    name, the words [ failed w/err 0x] and the eight digits, and the
    digits after the words read back as the code modulo 2^32. *)
Theorem X19_error_message_is_complete (pszFunction generic : string)
    (dwError : DWORD) :
  (String.length pszFunction <= 235)%nat ->
  failure_message pszFunction generic (ExDWORD dwError) =
    (pszFunction ++ (" failed w/err 0x" ++ hex8 dwError))%string /\
  unhex
    (substring (String.length pszFunction + 16) 8
       (failure_message pszFunction generic (ExDWORD dwError))) =
    Some (wrap32 dwError).
Proof.
  intro Hlen. cbn [failure_message].
  rewrite substring_0_all by (rewrite length_full_message; lia).
  split; [reflexivity|].
  replace (pszFunction ++ (" failed w/err 0x" ++ hex8 dwError))%string
    with ((pszFunction ++ " failed w/err 0x") ++ hex8 dwError)%string.
  - replace (String.length pszFunction + 16)%nat
      with (String.length (pszFunction ++ " failed w/err 0x")%string)
      by (rewrite length_append; reflexivity).
    rewrite substring_skip.
    rewrite substring_0_all by (rewrite length_hex8; lia).
    unfold hex8, unhex. rewrite unhex_hex_digits. cbn [unhex_from].
    reflexivity.
  - clear Hlen. induction pszFunction as [|c f IH]; [reflexivity|].
    cbn [append]. rewrite IH. reflexivity.
Qed.

Lemma X19_error_message_is_complete_witness :
  (String.length "Service Continue" <= 235)%nat /\
  failure_message "Service Continue" "Service failed to resume." (ExDWORD 5) =
    ("Service Continue" ++ (" failed w/err 0x" ++ hex8 5))%string /\
  unhex
    (substring (String.length "Service Continue" + 16) 8
       (failure_message "Service Continue" "Service failed to resume."
          (ExDWORD 5))) =
    Some (wrap32 5).
Proof.
  assert (H : (String.length "Service Continue" <= 235)%nat)
    by (cbn [String.length]; lia).
  split; [exact H|].
  exact (X19_error_message_is_complete "Service Continue"
           "Service failed to resume." 5 H).
Defined.

(** ** Capabilities are not consulted *)

Lemma deliver_any_capabilities (r : request) (dwAccepted : DWORD)
    (p : process) :
  process_of (deliver r (with_controls_accepted dwAccepted p)) =
    with_controls_accepted dwAccepted (process_of (deliver r p)) /\
  map shown (reports (trace_of (deliver r (with_controls_accepted dwAccepted p)))) =
    map shown (reports (trace_of (deliver r p))).
Proof.
  deliver_cases r;
    rewrite ?start_returns, ?start_throws, ?stop_returns, ?stop_throws,
      ?pause_returns, ?pause_throws, ?continue_returns, ?continue_throws,
      ?shutdown_returns, ?shutdown_throws;
    cbv zeta; cbn [fst snd]; step_reports; split; reflexivity.
Qed.

(** X20: the control handler never consults the accepted-controls mask:
    with any mask, so with any capabilities chosen at construction, a
    sequence of requests invokes the same callbacks, reports the same
    states, exit codes and checkpoints, and leaves the same service but
    for the mask itself.  A pause request reaches [onPause] also on a
    service built without the pause/continue capability. *)
Theorem X20_capabilities_not_consulted (rs : list request)
    (dwAccepted : DWORD) (p : process) :
  process_of (dispatch rs (with_controls_accepted dwAccepted p)) =
    with_controls_accepted dwAccepted (process_of (dispatch rs p)) /\
  map shown
    (reports (trace_of (dispatch rs (with_controls_accepted dwAccepted p)))) =
    map shown (reports (trace_of (dispatch rs p))) /\
  callbacks (trace_of (dispatch rs (with_controls_accepted dwAccepted p))) =
    callbacks (trace_of (dispatch rs p)).
Proof.
  split; [|split].
  - revert p. induction rs as [|r rs IH]; intro p; [reflexivity|].
    rewrite !dispatch_cons_process.
    destruct (deliver_any_capabilities r dwAccepted p) as [Hp _].
    rewrite Hp. apply IH.
  - revert p. induction rs as [|r rs IH]; intro p; [reflexivity|].
    rewrite !dispatch_cons_trace, !reports_app, !map_app.
    destruct (deliver_any_capabilities r dwAccepted p) as [Hp Hr].
    rewrite Hr, Hp, IH. reflexivity.
  - revert p. induction rs as [|r rs IH]; intro p; [reflexivity|].
    rewrite !dispatch_cons_trace, !callbacks_app, !deliver_callbacks.
    destruct (deliver_any_capabilities r dwAccepted p) as [Hp _].
    rewrite Hp, IH. reflexivity.
Qed.
